(** * Weather dashboard: a shallow embedding of [src/weather_dashboard.py]

    The program is sequential glue around three external services (the
    OpenWeather HTTP API, S3 and KMS).  The embedding keeps the shape of the
    Python source:

    - Python values that travel through the program (parsed JSON, boto3
      responses, the result of [os.getenv]) are the inductive [pyval];
    - exceptions are values of [exc]; a method is a computation in the
      state-and-exception monad [M];
    - the external services are an oracle [world]: every call is answered by a
      function of the history of calls made so far, so that theorems
      quantified over [world] speak about every outcome of every call;
    - the dict returned by [response.json()] is a heap cell, because
      [save_to_s3] mutates the object its caller holds. *)

From Stdlib Require Import ZArith String Ascii Floats.
From stdpp Require Import base option list strings gmap.

Open Scope string_scope.
Open Scope list_scope.

#[local] Set Warnings "-register-all".

(** ** Python values *)

Module Py.

(** [PDict] is an association list in insertion order, which is the order
    Python dicts (and [json.dumps]) keep. *)
Inductive pyval :=
| PNone
| PBool (b : bool)
| PInt (z : Z)
| PFloat (f : float)
| PStr (s : string)
| PList (l : list pyval)
| PDict (d : list (string * pyval)).

(** Python truth value, as tested by [if x:] and [not x]. *)
Definition truthy (v : pyval) : bool :=
  match v with
  | PNone => false
  | PBool b => b
  | PInt z => negb (z =? 0)%Z
  | PFloat f => negb (PrimFloat.eqb f 0%float)
  | PStr s => negb (String.eqb s "")
  | PList l => match l with [] => false | _ => true end
  | PDict d => match d with [] => false | _ => true end
  end.

(** Exception classes the program tells apart: [except
    requests.exceptions.RequestException], [except Exception] and the bare
    [except:].  [KeyboardInterrupt] stands for the classes that derive from
    [BaseException] only. *)
Inductive exc_class :=
| RequestException
| ClientError
| KeyError
| TypeError
| IndexError
| ValueError
| OtherException
| KeyboardInterrupt.

Record exc := Exc { exc_cls : exc_class; exc_msg : string }.

Definition is_Exception (e : exc) : bool :=
  match exc_cls e with KeyboardInterrupt => false | _ => true end.

Definition is_RequestException (e : exc) : bool :=
  match exc_cls e with RequestException => true | _ => false end.

Definition is_anything (e : exc) : bool := true.

(** Result of evaluating an expression or a call. *)
Inductive result (A : Type) :=
| Normal (a : A)
| Raise (e : exc).
Arguments Normal {A} a.
Arguments Raise {A} e.

(** [d[k]] on a dict. *)
Fixpoint dict_get (d : list (string * pyval)) (k : string) : option pyval :=
  match d with
  | [] => None
  | (k', v) :: d' => if String.eqb k' k then Some v else dict_get d' k
  end.

(** [d[k] = v] on a dict: an existing key keeps its place. *)
Fixpoint dict_set (d : list (string * pyval)) (k : string) (v : pyval)
  : list (string * pyval) :=
  match d with
  | [] => [(k, v)]
  | (k', v') :: d' =>
      if String.eqb k' k then (k, v) :: d' else (k', v') :: dict_set d' k v
  end.

(** [v[k]] with a string subscript. *)
Definition getitem (v : pyval) (k : string) : result pyval :=
  match v with
  | PDict d =>
      match dict_get d k with
      | Some x => Normal x
      | None => Raise (Exc KeyError k)
      end
  | PList _ => Raise (Exc TypeError "list indices must be integers or slices, not str")
  | PStr _ => Raise (Exc TypeError "string indices must be integers")
  | _ => Raise (Exc TypeError "object is not subscriptable")
  end.

(** [v[0]]: the subscript the program uses on the [weather] field.  The keys
    of a parsed JSON object are strings, so [0] is never one of them. *)
Definition getitem_0 (v : pyval) : result pyval :=
  match v with
  | PList l =>
      match l with
      | x :: _ => Normal x
      | [] => Raise (Exc IndexError "list index out of range")
      end
  | PStr s =>
      match s with
      | String c _ => Normal (PStr (String c EmptyString))
      | EmptyString => Raise (Exc IndexError "string index out of range")
      end
  | PDict _ => Raise (Exc KeyError "0")
  | _ => Raise (Exc TypeError "object is not subscriptable")
  end.

(** [v[k] = x] with a string subscript. *)
Definition setitem (v : pyval) (k : string) (x : pyval) : result pyval :=
  match v with
  | PDict d => Normal (PDict (dict_set d k x))
  | PList _ => Raise (Exc TypeError "list indices must be integers or slices, not str")
  | _ => Raise (Exc TypeError "object does not support item assignment")
  end.

(** [datetime] and [strftime('%Y%m%d-%H%M%S')].  [%Y] is written with four
    digits, which is what it prints for the years 1000..9999. *)
Record datetime := Datetime {
  year : nat; month : nat; day : nat; hour : nat; minute : nat; second : nat }.

Definition digit (n : nat) : ascii := ascii_of_nat (48 + n mod 10).

Definition pad2 (n : nat) : string :=
  String (digit (n / 10)) (String (digit n) EmptyString).

Definition pad4 (n : nat) : string :=
  String (digit (n / 1000)) (String (digit (n / 100)) (pad2 n)).

Definition strftime (t : datetime) : string :=
  pad4 (year t) +:+ pad2 (month t) +:+ pad2 (day t) +:+ "-" +:+
  pad2 (hour t) +:+ pad2 (minute t) +:+ pad2 (second t).

(** The years [strftime] writes with four digits. *)
Definition four_digit_year (t : datetime) : Prop :=
  (1000 ≤ Z.of_nat (year t) ≤ 9999)%Z.

End Py.
Export Py.

(** ** The process, the services and the monad *)

Module Sys.

(** What [requests.get] returns: the status line and the body, already parsed
    when it is JSON ([None] when [response.json()] cannot decode it). *)
Record http_response := HttpResponse {
  status_code : Z;
  json_body : option pyval }.

(** [json.dumps v]: the JSON text of [v], kept as the value it encodes. *)
Record json_text := JsonDumps { encoded : pyval }.

(** Outcome of a call to an external service. *)
Inductive outcome (A : Type) :=
| Returned (a : A)
| Raised (e : exc).
Arguments Returned {A} a.
Arguments Raised {A} e.

(** The keyword arguments of [s3_client.put_object]. *)
Record put_object_args := PutObjectArgs {
  Bucket : pyval;
  Key : string;
  Body : json_text;
  ContentType : string;
  ServerSideEncryption : string;
  SSEKMSKeyId : pyval }.

(** One call to an external service, with its arguments and its outcome. *)
Inductive event :=
| EvCreateKey (out : outcome pyval)
| EvHeadBucket (bucket : pyval) (out : outcome unit)
| EvCreateBucket (bucket : pyval) (out : outcome unit)
| EvPutBucketEncryption (bucket : pyval) (algorithm : string)
                        (key_id : pyval) (out : outcome unit)
| EvPutObject (args : put_object_args) (out : outcome unit)
| EvRequestsGet (url : string) (params : list (string * pyval))
                (out : outcome http_response).

(** The services.  Each answer may depend on every call made before it. *)
Record world := World {
  boto3_client : string -> outcome unit;
  kms_create_key : list event -> outcome pyval;
  s3_head_bucket : list event -> pyval -> outcome unit;
  s3_create_bucket : list event -> pyval -> outcome unit;
  s3_put_bucket_encryption :
    list event -> pyval -> string -> pyval -> outcome unit;
  s3_put_object : list event -> put_object_args -> outcome unit;
  requests_get :
    list event -> string -> list (string * pyval) -> outcome http_response;
  datetime_now : list event -> datetime }.

(** A printed line: the literal parts of the f-string and the formatted
    values. *)
Inductive piece :=
| Lit (s : string)
| Val (v : pyval)
| Err (e : exc).

(** The process state: the attributes of the one [WeatherDashboard] object,
    [os.environ] (after [load_dotenv]), the objects allocated by
    [response.json()], the calls made so far and the console. *)
Record state := State {
  api_key : pyval;
  bucket_name : pyval;
  kms_key_id : pyval;
  environ : gmap string string;
  heap : list pyval;
  calls : list event;
  stdout : list (list piece) }.

Definition set_kms_key_id (v : pyval) (st : state) : state :=
  State (api_key st) (bucket_name st) v (environ st) (heap st)
        (calls st) (stdout st).

Definition set_environ (e : gmap string string) (st : state) : state :=
  State (api_key st) (bucket_name st) (kms_key_id st) e (heap st)
        (calls st) (stdout st).

Definition set_heap (h : list pyval) (st : state) : state :=
  State (api_key st) (bucket_name st) (kms_key_id st) (environ st) h
        (calls st) (stdout st).

Definition add_call (ev : event) (st : state) : state :=
  State (api_key st) (bucket_name st) (kms_key_id st) (environ st) (heap st)
        (calls st ++ [ev]) (stdout st).

Definition add_line (l : list piece) (st : state) : state :=
  State (api_key st) (bucket_name st) (kms_key_id st) (environ st) (heap st)
        (calls st) (stdout st ++ [l]).

(** The state a process starts in, given its environment. *)
Definition initial (env : gmap string string) : state :=
  State PNone PNone PNone env [] [] [].

(** The object a reference points to. *)
Definition deref (st : state) (l : nat) : pyval :=
  default PNone (heap st !! l).

(** *** State and exception monad *)

Definition M (A : Type) : Type := state -> result A * state.

Definition ret {A} (a : A) : M A := fun st => (Normal a, st).

Definition bind {A B} (m : M A) (k : A -> M B) : M B :=
  fun st =>
    match m st with
    | (Normal a, st') => k a st'
    | (Raise e, st') => (Raise e, st')
    end.

Definition raise {A} (e : exc) : M A := fun st => (Raise e, st).

(** [try: body / except C as e: handler e], where [catches] decides
    membership in the class [C]. *)
Definition try_except {A} (body : M A) (catches : exc -> bool)
           (handler : exc -> M A) : M A :=
  fun st =>
    match body st with
    | (Raise e, st') => if catches e then handler e st' else (Raise e, st')
    | r => r
    end.

Definition lift {A} (r : result A) : M A := fun st => (r, st).

Definition get {A} (f : state -> A) : M A := fun st => (Normal (f st), st).

Definition modify (f : state -> state) : M unit := fun st => (Normal tt, f st).

Definition print (l : list piece) : M unit := modify (add_line l).

(** A call to a service: ask the oracle, record the call, and return or
    raise what the service answered. *)
Definition call {A} (ask : list event -> outcome A)
           (record : outcome A -> event) : M A :=
  fun st =>
    let out := ask (calls st) in
    (match out with Returned a => Normal a | Raised e => Raise e end,
     add_call (record out) st).

(** [for x in xs: body x]. *)
Fixpoint for_each {A} (xs : list A) (body : A -> M unit) : M unit :=
  match xs with
  | [] => ret tt
  | x :: xs' => bind (body x) (fun _ => for_each xs' body)
  end.

End Sys.
Export Sys.

Declare Scope py_scope.
Delimit Scope py_scope with py.
Notation "x <- m ;; k" := (bind m (fun x => k))
  (at level 100, m at next level, right associativity) : py_scope.
Notation "m ;; k" := (bind m (fun _ => k))
  (at level 100, right associativity) : py_scope.
Open Scope py_scope.

(** ** The program *)

Module Dashboard.

Section Program.

Variable w : world.

(** [os.getenv(name)]. *)
Definition os_getenv (name : string) : M pyval :=
  get (fun st =>
         match environ st !! name with
         | Some s => PStr s
         | None => PNone
         end).

(** [os.environ[name] = v]: only a [str] is accepted. *)
Definition os_environ_setitem (name : string) (v : pyval) : M unit :=
  match v with
  | PStr s => modify (fun st => set_environ (<[name := s]> (environ st)) st)
  | _ => raise (Exc TypeError "str expected")
  end.

(** [boto3.client(service)]. *)
Definition boto3_client_ (service : string) : M unit :=
  lift (match boto3_client w service with
        | Returned a => Normal a
        | Raised e => Raise e
        end).

(** [WeatherDashboard.__init__]. *)
Definition WeatherDashboard_init : M unit :=
  k <- os_getenv "OPENWEATHER_API_KEY";;
  modify (fun st => State k (bucket_name st) (kms_key_id st) (environ st)
                          (heap st) (calls st) (stdout st));;
  b <- os_getenv "AWS_BUCKET_NAME";;
  modify (fun st => State (api_key st) b (kms_key_id st) (environ st)
                          (heap st) (calls st) (stdout st));;
  boto3_client_ "s3";;
  boto3_client_ "kms";;
  modify (set_kms_key_id PNone).

(** [WeatherDashboard.create_kms_key_if_not_exists].  The arguments of
    [create_key] are constants and are not recorded. *)
Definition create_kms_key_if_not_exists : M unit :=
  try_except
    (k <- os_getenv "AWS_KMS_KEY_ID";;
     modify (set_kms_key_id k);;
     k <- get kms_key_id;;
     if negb (truthy k) then
       print [Lit "Creating a new KMS key..."];;
       response <- call (kms_create_key w) EvCreateKey;;
       metadata <- lift (getitem response "KeyMetadata");;
       key_id <- lift (getitem metadata "KeyId");;
       modify (set_kms_key_id key_id);;
       k <- get kms_key_id;;
       print [Lit "Created KMS key: "; Val k];;
       k <- get kms_key_id;;
       os_environ_setitem "AWS_KMS_KEY_ID" k
     else
       print [Lit "Using existing KMS key: "; Val k])
    is_Exception
    (fun e => print [Lit "Error creating or using KMS key: "; Err e]).

(** [WeatherDashboard.create_bucket_if_not_exists]. *)
Definition create_bucket_if_not_exists : M unit :=
  try_except
    (b <- get bucket_name;;
     call (fun h => s3_head_bucket w h b) (EvHeadBucket b);;
     print [Lit "Bucket "; Val b; Lit " exists"])
    is_anything
    (fun _ =>
       b <- get bucket_name;;
       print [Lit "Creating bucket "; Val b];;
       try_except
         (call (fun h => s3_create_bucket w h b) (EvCreateBucket b);;
          print [Lit "Successfully created bucket "; Val b];;
          k <- get kms_key_id;;
          if truthy k then
            call (fun h => s3_put_bucket_encryption w h b "aws:kms" k)
                 (EvPutBucketEncryption b "aws:kms" k);;
            print [Lit "Default encryption set with KMS key "; Val k]
          else
            print [Lit "Error: KMS key ID is not set. Bucket encryption skipped."])
         is_Exception
         (fun e => print [Lit "Error creating bucket: "; Err e])).

(** [response.raise_for_status()]: an [HTTPError], which is a
    [RequestException], for the status codes 400..599. *)
Definition raise_for_status (r : http_response) : M unit :=
  if ((400 <=? status_code r) && (status_code r <? 600))%Z
  then raise (Exc RequestException "HTTPError")
  else ret tt.

(** [response.json()]: a body that is not JSON raises
    [requests.exceptions.JSONDecodeError], a [RequestException]. *)
Definition response_json (r : http_response) : M pyval :=
  match json_body r with
  | Some v => ret v
  | None => raise (Exc RequestException "JSONDecodeError")
  end.

(** A new object holding [v]; the result is the reference to it. *)
Definition new (v : pyval) : M nat :=
  fun st => (Normal (length (heap st)), set_heap (heap st ++ [v]) st).

(** [WeatherDashboard.fetch_weather].  The result is a reference: to the
    parsed payload, or to [None]. *)
Definition fetch_weather (city : string) : M nat :=
  let base_url := "http://api.openweathermap.org/data/2.5/weather" in
  k <- get api_key;;
  let params := [("q", PStr city); ("appid", k); ("units", PStr "imperial")] in
  try_except
    (response <- call (fun h => requests_get w h base_url params)
                      (EvRequestsGet base_url params);;
     raise_for_status response;;
     v <- response_json response;;
     new v)
    is_RequestException
    (fun e => print [Lit "Error fetching weather data: "; Err e];; new PNone).

(** [obj[k] = x] on the object behind a reference. *)
Definition setitem_ref (l : nat) (k : string) (x : pyval) : M unit :=
  fun st =>
    match setitem (deref st l) k x with
    | Normal v' => (Normal tt, set_heap (<[l := v']> (heap st)) st)
    | Raise e => (Raise e, st)
    end.

Definition file_name_of (city timestamp : string) : string :=
  "weather-data/" +:+ city +:+ "-" +:+ timestamp +:+ ".json".

(** [WeatherDashboard.save_to_s3]. *)
Definition save_to_s3 (weather_data : nat) (city : string) : M bool :=
  d <- get (fun st => deref st weather_data);;
  if negb (truthy d) then ret false
  else
    now <- get (fun st => datetime_now w (calls st));;
    let timestamp := strftime now in
    let file_name := file_name_of city timestamp in
    try_except
      (setitem_ref weather_data "timestamp" (PStr timestamp);;
       k <- get kms_key_id;;
       (if negb (truthy k)
        then raise (Exc ValueError
                      "KMS Key ID is not set. Cannot save data with encryption.")
        else ret tt);;
       print [Lit "Saving data to S3 with KMS key: "; Val k];;
       b <- get bucket_name;;
       d <- get (fun st => deref st weather_data);;
       let args := PutObjectArgs b file_name (JsonDumps d) "application/json"
                                 "aws:kms" k in
       call (fun h => s3_put_object w h args) (EvPutObject args);;
       print [Lit "Successfully saved data for "; Val (PStr city);
              Lit " to S3 with KMS encryption"];;
       ret true)
      is_Exception
      (fun e => print [Lit "Error saving to S3: "; Err e];; ret false).

Definition nl : string := String (ascii_of_nat 10) EmptyString.

Definition fetching_line (city : string) : list piece :=
  [Lit nl; Lit "Fetching weather for "; Val (PStr city); Lit "..."].

Definition failed_line (city : string) : list piece :=
  [Lit "Failed to fetch weather data for "; Val (PStr city)].

(** The body of the [for city in cities] loop of [main]. *)
Definition process_city (city : string) : M unit :=
  print (fetching_line city);;
  weather_data <- fetch_weather city;;
  d <- get (fun st => deref st weather_data);;
  if truthy d then
    m <- lift (getitem d "main");;
    temp <- lift (getitem m "temp");;
    m <- lift (getitem d "main");;
    feels_like <- lift (getitem m "feels_like");;
    m <- lift (getitem d "main");;
    humidity <- lift (getitem m "humidity");;
    l <- lift (getitem d "weather");;
    c <- lift (getitem_0 l);;
    description <- lift (getitem c "description");;
    print [Lit "Temperature: "; Val temp; Lit "°F"];;
    print [Lit "Feels like: "; Val feels_like; Lit "°F"];;
    print [Lit "Humidity: "; Val humidity; Lit "%"];;
    print [Lit "Conditions: "; Val description];;
    success <- save_to_s3 weather_data city;;
    if success
    then print [Lit "Weather data for "; Val (PStr city); Lit " saved to S3!"]
    else ret tt
  else
    print (failed_line city).

Definition cities : list string := ["Calgary"; "Ontario"; "New York"].

(** The two provisioning steps [main] runs before its loop. *)
Definition provision : M unit :=
  WeatherDashboard_init;;
  create_kms_key_if_not_exists;;
  create_bucket_if_not_exists.

(** [main]. *)
Definition main : M unit :=
  WeatherDashboard_init;;
  create_kms_key_if_not_exists;;
  create_bucket_if_not_exists;;
  for_each cities process_city.

End Program.

(** *** Predicates and projections used to state the properties *)

(** The payload has every field the summary reads: [main.temp],
    [main.feels_like], [main.humidity] and [weather[0].description]. *)
Definition has_key (d : list (string * pyval)) (k : string) : bool :=
  match dict_get d k with Some _ => true | None => false end.

Definition has_summary_fields (d : pyval) : bool :=
  match d with
  | PDict top =>
      match dict_get top "main", dict_get top "weather" with
      | Some (PDict m), Some (PList (PDict c :: _)) =>
          has_key m "temp" && has_key m "feels_like" && has_key m "humidity"
          && has_key c "description"
      | _, _ => false
      end
  | _ => false
  end.

(** A storage call made with the key [k]: a [put_object] or a
    [put_bucket_encryption] asks for [aws:kms] with [k], and [k] is set. *)
Definition event_uses_key (k : pyval) (ev : event) : Prop :=
  match ev with
  | EvPutObject args _ =>
      ServerSideEncryption args = "aws:kms" ∧ SSEKMSKeyId args = k ∧
      truthy k = true
  | EvPutBucketEncryption _ alg k' _ =>
      alg = "aws:kms" ∧ k' = k ∧ truthy k = true
  | _ => True
  end.

(** From [st] to [st'] the held key identifier is only read: it is the same,
    and every call added to the history uses it. *)
Definition key_kept (st st' : state) : Prop :=
  kms_key_id st' = kms_key_id st ∧
  ∃ added, calls st' = calls st ++ added ∧
           Forall (event_uses_key (kms_key_id st)) added.

(** The class of the errors a failed subscript raises. *)
Definition is_lookup_error (e : exc) : bool :=
  match exc_cls e with
  | KeyError | TypeError | IndexError => true
  | _ => false
  end.

Definition base_url : string :=
  "http://api.openweathermap.org/data/2.5/weather".

(** The request [fetch_weather] sends for a city. *)
Definition params_of (key : pyval) (city : string) : list (string * pyval) :=
  [("q", PStr city); ("appid", key); ("units", PStr "imperial")].

(** The [put_object] calls of a history, in order. *)
Fixpoint put_objects (h : list event) : list put_object_args :=
  match h with
  | [] => []
  | EvPutObject args _ :: h' => args :: put_objects h'
  | _ :: h' => put_objects h'
  end.

(** The [create_key], [create_bucket] and [put_bucket_encryption] calls. *)
Definition is_create_key (ev : event) : bool :=
  match ev with EvCreateKey _ => true | _ => false end.

Definition is_create_bucket (ev : event) : bool :=
  match ev with EvCreateBucket _ _ => true | _ => false end.

Definition is_put_bucket_encryption (ev : event) : bool :=
  match ev with EvPutBucketEncryption _ _ _ _ => true | _ => false end.

(** The default encryption the calls of a history have bound to the bucket
    (the program names one bucket only): algorithm and key of the last
    [put_bucket_encryption] that returned, [acc] when there is none. *)
Fixpoint default_encryption (h : list event) (acc : option (string * pyval))
  : option (string * pyval) :=
  match h with
  | [] => acc
  | EvPutBucketEncryption _ alg k (Returned _) :: h' =>
      default_encryption h' (Some (alg, k))
  | _ :: h' => default_encryption h' acc
  end.

(** The expression [response['KeyMetadata']['KeyId']] of
    [create_kms_key_if_not_exists]. *)
Definition key_id_of (response : pyval) : result pyval :=
  match getitem response "KeyMetadata" with
  | Normal metadata => getitem metadata "KeyId"
  | Raise e => Raise e
  end.

(** [r.raise_for_status()] raises for this response. *)
Definition is_error_status (r : http_response) : bool :=
  ((400 <=? status_code r) && (status_code r <? 600))%Z.

(** The query parameters of the requests sent to the provider, in order. *)
Fixpoint requests_sent (h : list event) : list (list (string * pyval)) :=
  match h with
  | [] => []
  | EvRequestsGet _ params _ :: h' => params :: requests_sent h'
  | _ :: h' => requests_sent h'
  end.

(** A storage call made on the bucket [b]; a [put_object] also declares its
    body as JSON. *)
Definition event_names_bucket (b : pyval) (ev : event) : Prop :=
  match ev with
  | EvHeadBucket b' _ | EvCreateBucket b' _
  | EvPutBucketEncryption b' _ _ _ => b' = b
  | EvPutObject args _ =>
      Bucket args = b ∧ ContentType args = "application/json"
  | _ => True
  end.

(** From [st] to [st'] the configuration read at construction is kept --
    API key, bucket name -- and every call added is on that bucket. *)
Definition config_kept (st st' : state) : Prop :=
  api_key st' = api_key st ∧
  bucket_name st' = bucket_name st ∧
  ∃ added, calls st' = calls st ++ added ∧
           Forall (event_names_bucket (bucket_name st)) added.

(** From [st] to [st'] the provider was sent exactly the requests [reqs] and
    at most [n] objects were written. *)
Definition traffic (st st' : state) (reqs : list (list (string * pyval)))
           (n : nat) : Prop :=
  api_key st' = api_key st ∧
  requests_sent (calls st') = requests_sent (calls st) ++ reqs ∧
  (length (put_objects (calls st'))
   ≤ length (put_objects (calls st)) + n)%nat.

(** A write made for [city]: the key is [weather-data/{city}-{timestamp}.json]
    for a formatted clock reading, and the body is the dump of a dict whose
    [timestamp] field is that same reading. *)
Definition put_for (city : string) (args : put_object_args) : Prop :=
  ∃ t d,
    Key args = file_name_of city (strftime t) ∧
    Body args = JsonDumps (PDict d) ∧
    dict_get d "timestamp" = Some (PStr (strftime t)).

(** From [st] to [st'] every write added is a write for one of [cs]. *)
Definition writes_for (cs : list string) (st st' : state) : Prop :=
  ∃ added,
    put_objects (calls st') = put_objects (calls st) ++ added ∧
    Forall (λ args, ∃ c, c ∈ cs ∧ put_for c args) added.

(** An outcome that raises, if it raises, in the class [catches]. *)
Definition raises_only {A} (catches : exc → bool) (o : outcome A) : Prop :=
  match o with
  | Raised e => catches e = true
  | Returned _ => True
  end.

(** Services whose failures are all of the classes the program catches, and
    whose provider sends, when it sends a true payload with a success
    status, one that has the fields of the summary. *)
Record well_behaved (w : world) : Prop := WellBehaved {
  wb_s3_client : boto3_client w "s3" = Returned tt;
  wb_kms_client : boto3_client w "kms" = Returned tt;
  wb_create_key : ∀ h, raises_only is_Exception (kms_create_key w h);
  wb_create_bucket : ∀ h b, raises_only is_Exception (s3_create_bucket w h b);
  wb_put_bucket_encryption :
    ∀ h b a k, raises_only is_Exception (s3_put_bucket_encryption w h b a k);
  wb_put_object : ∀ h args, raises_only is_Exception (s3_put_object w h args);
  wb_requests_get :
    ∀ h u p, raises_only is_RequestException (requests_get w h u p);
  wb_payload :
    ∀ h u p resp v,
      requests_get w h u p = Returned resp →
      is_error_status resp = false →
      json_body resp = Some v →
      truthy v = true →
      has_summary_fields v = true }.

End Dashboard.
Export Dashboard.

(** ** Concrete services and states, for the scenarios *)

Module Scenario.

(** The payload of the Calgary scenario. *)
Definition calgary_payload : pyval :=
  PDict [("main", PDict [("temp", PFloat 45.25); ("feels_like", PFloat 40.5);
                         ("humidity", PInt 60)]);
         ("weather", PList [PDict [("description", PStr "clear sky")]])].

(** A payload the provider can send with status 200 that has none of the
    fields of the summary. *)
Definition bare_payload : pyval := PDict [("cod", PInt 200)].

Definition clock (h : list event) : datetime :=
  Datetime 2026 11 3 9 44 (length h).

(** Every service answers; the bucket does not exist yet; the provider sends
    [payload] for every city. *)
Definition serving (payload : pyval) : world :=
  World (λ _, Returned tt)
        (λ _, Returned (PDict [("KeyMetadata",
                                PDict [("KeyId", PStr "key-new")])]))
        (λ _ _, Raised (Exc ClientError "Not Found"))
        (λ _ _, Returned tt)
        (λ _ _ _ _, Returned tt)
        (λ _ _, Returned tt)
        (λ _ _ _, Returned (HttpResponse 200 (Some payload)))
        clock.

(** As [serving], with the bucket already there. *)
Definition bucket_exists (payload : pyval) : world :=
  World (λ _, Returned tt)
        (kms_create_key (serving payload))
        (λ _ _, Returned tt)
        (s3_create_bucket (serving payload))
        (s3_put_bucket_encryption (serving payload))
        (s3_put_object (serving payload))
        (requests_get (serving payload))
        clock.

(** As [serving], with a provider that cannot be reached. *)
Definition unreachable : world :=
  World (λ _, Returned tt)
        (kms_create_key (serving PNone))
        (s3_head_bucket (serving PNone))
        (s3_create_bucket (serving PNone))
        (s3_put_bucket_encryption (serving PNone))
        (s3_put_object (serving PNone))
        (λ _ _ _, Raised (Exc RequestException "ConnectionError"))
        clock.

Definition env_with_key : gmap string string :=
  <["AWS_KMS_KEY_ID" := "key-123"]>
    (<["AWS_BUCKET_NAME" := "weather-bucket"]>
       (<["OPENWEATHER_API_KEY" := "api-key"]> ∅)).

Definition env_without_key : gmap string string :=
  <["AWS_BUCKET_NAME" := "weather-bucket"]>
    (<["OPENWEATHER_API_KEY" := "api-key"]> ∅).

(** A dashboard that holds [key] and one fetched [payload], at reference 0. *)
Definition holding (key payload : pyval) : state :=
  State (PStr "api-key") (PStr "weather-bucket") key env_without_key
        [payload] [] [].

(** As [serving], with a KMS that refuses to create keys. *)
Definition kms_down : world :=
  World (λ _, Returned tt)
        (λ _, Raised (Exc ClientError "AccessDenied"))
        (s3_head_bucket (serving calgary_payload))
        (s3_create_bucket (serving calgary_payload))
        (s3_put_bucket_encryption (serving calgary_payload))
        (s3_put_object (serving calgary_payload))
        (requests_get (serving calgary_payload))
        clock.

(** As [serving], with a storage that accepts nothing: neither the bucket
    creation nor a write. *)
Definition storage_down : world :=
  World (λ _, Returned tt)
        (kms_create_key (serving calgary_payload))
        (s3_head_bucket (serving calgary_payload))
        (λ _ _, Raised (Exc ClientError "AccessDenied"))
        (s3_put_bucket_encryption (serving calgary_payload))
        (λ _ _, Raised (Exc ClientError "AccessDenied"))
        (requests_get (serving calgary_payload))
        clock.

(** As [serving], with a provider that answers 404 with a JSON body. *)
Definition city_not_found : world :=
  World (λ _, Returned tt)
        (kms_create_key (serving calgary_payload))
        (s3_head_bucket (serving calgary_payload))
        (s3_create_bucket (serving calgary_payload))
        (s3_put_bucket_encryption (serving calgary_payload))
        (s3_put_object (serving calgary_payload))
        (λ _ _ _, Returned (HttpResponse 404
                    (Some (PDict [("cod", PStr "404");
                                  ("message", PStr "city not found")]))))
        clock.

(** As [serving], interrupted from the keyboard during every call. *)
Definition interrupted : world :=
  World (λ _, Returned tt)
        (λ _, Raised (Exc KeyboardInterrupt ""))
        (λ _ _, Raised (Exc KeyboardInterrupt ""))
        (λ _ _, Raised (Exc KeyboardInterrupt ""))
        (λ _ _ _ _, Raised (Exc KeyboardInterrupt ""))
        (λ _ _, Raised (Exc KeyboardInterrupt ""))
        (λ _ _ _, Raised (Exc KeyboardInterrupt ""))
        clock.

End Scenario.

(** ** Properties *)

(** *** Evaluation of the monad *)

Tactic Notation "unfold_M" :=
  cbv [bind ret get modify print call lift raise try_except new setitem_ref
       os_getenv os_environ_setitem boto3_client_ raise_for_status
       response_json].

Tactic Notation "unfold_M" "in" hyp(H) :=
  cbv [bind ret get modify print call lift raise try_except new setitem_ref
       os_getenv os_environ_setitem boto3_client_ raise_for_status
       response_json] in H.

(** *** The loop and the pieces of [main] *)

Lemma for_each_app {A} (xs ys : list A) (body : A → M unit) (st : state) :
  for_each (xs ++ ys) body st =
  (for_each xs body;; for_each ys body) st.
Proof.
  revert st. induction xs as [|x xs IH]; intros st; cbn.
  - reflexivity.
  - unfold bind in *. destruct (body x st) as [[[]|e] st']; [apply IH|reflexivity].
Qed.

Lemma main_provision (w : world) (st : state) :
  main w st = (provision w;; for_each cities (process_city w)) st.
Proof.
  unfold main, provision, bind.
  destruct (WeatherDashboard_init w st) as [[[]|e] st1]; [|reflexivity].
  destruct (create_kms_key_if_not_exists w st1) as [[[]|e] st2]; [|reflexivity].
  destruct (create_bucket_if_not_exists w st2) as [[[]|e] st3]; reflexivity.
Qed.

(** When provisioning and the cities before [city] went through, the run is
    the processing of [city] and of the cities after it. *)
Lemma main_reaches (w : world) (pre rest : list string) (city : string)
      (st0 st : state) :
  cities = pre ++ city :: rest →
  (provision w;; for_each pre (process_city w)) st0 = (Normal tt, st) →
  main w st0 =
  (process_city w city;; for_each rest (process_city w)) st.
Proof.
  intros Hc Hpre. rewrite main_provision, Hc. unfold bind in *.
  destruct (provision w st0) as [[[]|e] st']; [|discriminate].
  rewrite for_each_app. unfold bind. rewrite Hpre. reflexivity.
Qed.

Lemma cities_NoDup (pre rest : list string) (city : string) :
  cities = pre ++ city :: rest → (city ∉ pre) ∧ (city ∉ rest).
Proof.
  intros Hc.
  assert (Hnd : NoDup cities) by compute_done.
  rewrite Hc in Hnd. apply NoDup_app in Hnd as (_ & Hpre & Hrest).
  apply NoDup_cons in Hrest as [Hrest _]. split; [|exact Hrest].
  intros Hin. apply (Hpre _ Hin). left.
Qed.

Lemma fetch_weather_calls (w : world) (city : string) (st st' : state)
      (r : result nat) :
  fetch_weather w city st = (r, st') →
  calls st' =
    calls st ++
    [EvRequestsGet base_url (params_of (api_key st) city)
       (requests_get w (calls st) base_url (params_of (api_key st) city))] ∧
  kms_key_id st' = kms_key_id st.
Proof.
  unfold fetch_weather, params_of, base_url. unfold_M. cbn.
  destruct (requests_get w _ _ _) as [resp|e]; cbn.
  - destruct (_ && _); cbn.
    + intros [= <- <-]. split; reflexivity.
    + destruct (json_body resp); cbn; intros [= <- <-]; split; reflexivity.
  - destruct (is_RequestException e); cbn; intros [= <- <-]; split; reflexivity.
Qed.


Lemma truthy_PStr (k : string) : k ≠ "" → truthy (PStr k) = true.
Proof.
  intros Hk. cbn. apply negb_true_iff, String.eqb_neq. exact Hk.
Qed.

Lemma put_objects_app (h1 h2 : list event) :
  put_objects (h1 ++ h2) = put_objects h1 ++ put_objects h2.
Proof.
  induction h1 as [|ev h1 IH]; [reflexivity|].
  destruct ev; cbn; rewrite ?IH; reflexivity.
Qed.

Lemma dict_get_set (d : list (string * pyval)) (k : string) (v : pyval) :
  dict_get (dict_set d k v) k = Some v.
Proof.
  induction d as [|[k' v'] d IH]; cbn.
  - rewrite String.eqb_refl. reflexivity.
  - destruct (String.eqb k' k) eqn:E; cbn.
    + rewrite String.eqb_refl. reflexivity.
    + rewrite E. exact IH.
Qed.

Lemma deref_truthy (st : state) (l : nat) :
  truthy (deref st l) = true → heap st !! l = Some (deref st l).
Proof.
  unfold deref. destruct (heap st !! l); cbn; [reflexivity | discriminate].
Qed.

Lemma default_encryption_app (h1 h2 : list event)
      (acc : option (string * pyval)) :
  default_encryption (h1 ++ h2) acc =
  default_encryption h2 (default_encryption h1 acc).
Proof.
  revert acc. induction h1 as [|ev h1 IH]; intros acc; [reflexivity|].
  destruct ev as [| | |? ? ? [|]| |]; cbn; apply IH.
Qed.

Section Operations.

Variable w : world.

(** C7. EnsureEncryptionKey with a key identifier available from the
    configuration (the environment variable is set and not empty): no
    [create_key] call is made -- the history of calls is unchanged -- and the
    held identifier is the configured one; the environment is unchanged, so
    running the operation again gives the same identifier and again no
    call. *)
Theorem ensure_key_idempotent (st : state) (k : string) :
  environ st !! "AWS_KMS_KEY_ID" = Some k →
  k ≠ "" →
  ∃ st',
    create_kms_key_if_not_exists w st = (Normal tt, st') ∧
    kms_key_id st' = PStr k ∧
    calls st' = calls st ∧
    filter (λ ev, is_create_key ev = true) (calls st') =
      filter (λ ev, is_create_key ev = true) (calls st) ∧
    environ st' = environ st ∧
    ∃ st'',
      create_kms_key_if_not_exists w st' = (Normal tt, st'') ∧
      kms_key_id st'' = PStr k ∧
      calls st'' = calls st.
Proof.
  intros Henv Hk. pose proof (truthy_PStr k Hk) as Ht. cbn in Ht.
  unfold create_kms_key_if_not_exists. unfold_M. cbn. rewrite Henv. cbn.
  rewrite Ht. cbn.
  eexists. split; [reflexivity|]. cbn. repeat split.
  eexists. rewrite Henv. cbn. rewrite Ht. cbn. repeat split.
Qed.

(** C8. EnsureStorageBucket on a bucket that already exists (the
    [head_bucket] check returns): the existence check is the only call made,
    so there is neither a [create_bucket] nor a [put_bucket_encryption]
    call. *)
Theorem ensure_bucket_idempotent (st : state) :
  s3_head_bucket w (calls st) (bucket_name st) = Returned tt →
  ∃ st',
    create_bucket_if_not_exists w st = (Normal tt, st') ∧
    calls st' = calls st ++ [EvHeadBucket (bucket_name st) (Returned tt)] ∧
    filter (λ ev, is_create_bucket ev = true) (calls st') =
      filter (λ ev, is_create_bucket ev = true) (calls st) ∧
    filter (λ ev, is_put_bucket_encryption ev = true) (calls st') =
      filter (λ ev, is_put_bucket_encryption ev = true) (calls st) ∧
    kms_key_id st' = kms_key_id st.
Proof.
  intros Hhead.
  unfold create_bucket_if_not_exists. unfold_M. cbn. rewrite Hhead. cbn.
  eexists. split; [reflexivity|]. cbn.
  rewrite !filter_app. cbn. rewrite !app_nil_r. repeat split.
Qed.

(** C4. StoreSnapshot with the key identifier unset (None, empty, or any
    other false value): for every payload and every city the call returns
    [False], raises nothing, and makes no call to a service -- in particular
    no [put_object]. *)
Theorem store_fails_without_key (weather_data : nat) (city : string)
        (st : state) :
  truthy (kms_key_id st) = false →
  ∃ st',
    save_to_s3 w weather_data city st = (Normal false, st') ∧
    calls st' = calls st ∧
    put_objects (calls st') = put_objects (calls st) ∧
    kms_key_id st' = kms_key_id st.
Proof.
  intros Hkey.
  unfold save_to_s3. unfold_M. cbn.
  destruct (deref st weather_data) as [|b|z|f|s|l|d] eqn:Hd; cbn;
    repeat (match goal with
            | |- context [negb ?c] => destruct c eqn:?; cbn
            | |- context [match ?l with [] => _ | _ => _ end] =>
                destruct l eqn:?; cbn
            end);
    rewrite ?Hd; cbn; rewrite ?Hkey; cbn;
    eexists; (split; [reflexivity|]); repeat split.
Qed.

(** C6. A StoreSnapshot call that returns [True]: the payload is a dict, it
    has been given the field [timestamp]; the one call made is a [put_object]
    whose body is the serialization of the stamped payload and whose key is
    [weather-data/{city}-{timestamp}.json], with the same timestamp as the
    field; the write asks for [aws:kms] encryption with the held key. *)
Theorem store_success_stamps (weather_data : nat) (city : string)
        (st st' : state) :
  save_to_s3 w weather_data city st = (Normal true, st') →
  let timestamp := strftime (datetime_now w (calls st)) in
  ∃ d,
    deref st weather_data = PDict d ∧
    deref st' weather_data = PDict (dict_set d "timestamp" (PStr timestamp)) ∧
    getitem (deref st' weather_data) "timestamp" = Normal (PStr timestamp) ∧
    calls st' =
      calls st ++
      [EvPutObject
         (PutObjectArgs (bucket_name st)
            ("weather-data/" +:+ city +:+ "-" +:+ timestamp +:+ ".json")
            (JsonDumps (deref st' weather_data))
            "application/json" "aws:kms" (kms_key_id st))
         (Returned tt)] ∧
    truthy (kms_key_id st) = true.
Proof.
  intros Hrun timestamp. subst timestamp.
  unfold save_to_s3, file_name_of in Hrun. unfold_M in Hrun.
  cbn -[String.append truthy] in Hrun.
  destruct (truthy (deref st weather_data)) eqn:Ht;
    cbn -[String.append truthy] in Hrun; [|discriminate].
  pose proof (deref_truthy _ _ Ht) as Hl.
  assert (Hst : ∀ v,
             default PNone (<[weather_data := v]> (heap st) !! weather_data) = v).
  { intros v. rewrite list_lookup_insert_eq; [reflexivity|].
    eapply lookup_lt_Some, Hl. }
  destruct (deref st weather_data) as [|b|z|f|s|l|d] eqn:Hd;
    cbn -[String.append truthy] in Hrun; try discriminate.
  destruct (truthy (kms_key_id st)) eqn:Hkey;
    cbn -[String.append truthy] in Hrun; [|discriminate].
  unfold deref in Hrun; cbn -[String.append truthy] in Hrun.
  rewrite Hst in Hrun.
  destruct (s3_put_object w _ _) as [[]|e] eqn:Hput;
    cbn -[String.append] in Hrun;
    try destruct (is_Exception e); try discriminate.
  injection Hrun as <-. exists d.
  unfold deref; cbn -[String.append dict_set]. rewrite Hst.
  cbn -[String.append dict_set]. rewrite dict_get_set.
  repeat split.
Qed.

(** C2, as amended.  StoreSnapshot returns [False] when the payload is absent
    and when the key identifier is unset, and makes no call in either case.
    An absent payload is rejected first and nothing at all changes.  A
    present payload is stamped before the key identifier is looked at: when
    only the key identifier is unset, a dict payload leaves the call with
    its [timestamp] field set.  A call is made only when both are present,
    and then it is a [put_object] of the stamped payload. *)
Theorem store_rejections (weather_data : nat) (city : string) (st : state) :
  (truthy (deref st weather_data) = false →
   save_to_s3 w weather_data city st = (Normal false, st)) ∧
  (truthy (deref st weather_data) = true →
   truthy (kms_key_id st) = false →
   ∃ st',
     save_to_s3 w weather_data city st = (Normal false, st') ∧
     calls st' = calls st ∧
     deref st' weather_data =
       match deref st weather_data with
       | PDict d =>
           PDict (dict_set d "timestamp"
                           (PStr (strftime (datetime_now w (calls st)))))
       | v => v
       end) ∧
  (∀ r st',
     save_to_s3 w weather_data city st = (r, st') →
     calls st' ≠ calls st →
     truthy (deref st weather_data) = true ∧
     truthy (kms_key_id st) = true ∧
     ∃ args out,
       calls st' = calls st ++ [EvPutObject args out] ∧
       Body args = JsonDumps (deref st' weather_data) ∧
       getitem (deref st' weather_data) "timestamp" =
         Normal (PStr (strftime (datetime_now w (calls st))))).
Proof.
  assert (Hst : truthy (deref st weather_data) = true → ∀ v,
             default PNone (<[weather_data := v]> (heap st) !! weather_data) = v).
  { intros Ht v. rewrite list_lookup_insert_eq; [reflexivity|].
    eapply lookup_lt_Some, deref_truthy, Ht. }
  unfold save_to_s3, file_name_of. unfold_M.
  cbn -[String.append truthy].
  destruct (truthy (deref st weather_data)) eqn:Ht;
    cbn -[String.append truthy].
  2: { split; [reflexivity|]. split; [discriminate|].
       intros r st' [= <- <-] Hne. congruence. }
  specialize (Hst eq_refl).
  split; [discriminate|].
  destruct (deref st weather_data) as [|b|z|f|s|l|d] eqn:Hd;
    cbn -[String.append truthy].
  7: { destruct (truthy (kms_key_id st)) eqn:Hkey;
         cbn -[String.append truthy].
       - split; [discriminate|]. intros r st' Hrun Hne.
         repeat split.
         unfold deref in Hrun; cbn -[String.append truthy] in Hrun.
         rewrite Hst in Hrun.
         destruct (s3_put_object w _ _) as [[]|e] eqn:Hput;
           cbn -[String.append] in Hrun;
           try destruct (is_Exception e);
           injection Hrun as <- <-;
           do 2 eexists; unfold deref; cbn -[String.append dict_set];
           rewrite Hst; cbn -[String.append dict_set]; rewrite dict_get_set;
           repeat split.
       - split.
         + intros _ _. eexists. split; [reflexivity|].
           unfold deref; cbn. rewrite Hst. split; reflexivity.
         + intros r st' [= <- <-] Hne. cbn in Hne. congruence. }
  all: split;
    [ intros _ _; eexists; split; [reflexivity|];
      unfold deref in *; cbn; rewrite ?Hd; split; reflexivity
    | intros r st' [= <- <-] Hne; cbn in Hne; congruence ].
Qed.

(** C3, as amended.  EnsureStorageBucket configures encryption only for a
    bucket it has just created.  When the existence check returns, it is the
    only call, whatever the key identifier.  When the check fails and the
    creation returns: with the key identifier set, the next and last call is
    [put_bucket_encryption] for the named bucket with [aws:kms] and the held
    key, and if that call returns the bucket has this default encryption;
    with the key identifier unset there is no such call and the last line
    printed reports the omission. *)
Theorem ensure_bucket_encryption (st : state) :
  let b := bucket_name st in
  let k := kms_key_id st in
  let h1 := calls st ++ [EvHeadBucket b (s3_head_bucket w (calls st) b)] in
  let h2 := h1 ++ [EvCreateBucket b (Returned tt)] in
  (s3_head_bucket w (calls st) b = Returned tt →
   ∃ st',
     create_bucket_if_not_exists w st = (Normal tt, st') ∧
     calls st' = h1 ∧
     stdout st' = stdout st ++ [[Lit "Bucket "; Val b; Lit " exists"]]) ∧
  (∀ e,
     s3_head_bucket w (calls st) b = Raised e →
     s3_create_bucket w h1 b = Returned tt →
     (truthy k = true →
      ∃ r st',
        create_bucket_if_not_exists w st = (r, st') ∧
        calls st' =
          h2 ++ [EvPutBucketEncryption b "aws:kms" k
                   (s3_put_bucket_encryption w h2 b "aws:kms" k)] ∧
        (s3_put_bucket_encryption w h2 b "aws:kms" k = Returned tt →
         r = Normal tt ∧
         default_encryption (calls st') None = Some ("aws:kms", k))) ∧
     (truthy k = false →
      ∃ st',
        create_bucket_if_not_exists w st = (Normal tt, st') ∧
        calls st' = h2 ∧
        last (stdout st') =
          Some [Lit "Error: KMS key ID is not set. Bucket encryption skipped."])).
Proof.
  intros b k h1 h2. subst b k h1 h2.
  unfold create_bucket_if_not_exists. unfold_M. cbn. split.
  - intros ->. cbn. eexists. repeat split.
  - intros e -> Hcreate. cbn. rewrite Hcreate. cbn. split; intros ->; cbn.
    + destruct (s3_put_bucket_encryption w _ _ _ _) as [[]|e'] eqn:Hput; cbn.
      * do 2 eexists. split; [reflexivity|]. cbn. split; [reflexivity|].
        intros _. split; [reflexivity|].
        rewrite default_encryption_app. reflexivity.
      * destruct (is_Exception e'); do 2 eexists;
          (split; [reflexivity|]); cbn; (split; [reflexivity|]); discriminate.
    + eexists. split; [reflexivity|]. cbn. split; [reflexivity|].
      apply last_snoc.
Qed.

End Operations.

(** *** The held key identifier is only read after provisioning *)

Lemma key_kept_refl (st : state) : key_kept st st.
Proof.
  split; [reflexivity|]. exists []. rewrite app_nil_r. split; [reflexivity|].
  constructor.
Qed.

Lemma key_kept_trans (st1 st2 st3 : state) :
  key_kept st1 st2 → key_kept st2 st3 → key_kept st1 st3.
Proof.
  intros [Hk1 (a1 & Hc1 & Hf1)] [Hk2 (a2 & Hc2 & Hf2)].
  split; [congruence|]. exists (a1 ++ a2). split.
  - rewrite Hc2, Hc1, app_assoc. reflexivity.
  - rewrite Hk1 in Hf2. apply Forall_app. split; assumption.
Qed.

Lemma key_kept_add_line (st : state) (l : list piece) :
  key_kept st (add_line l st).
Proof.
  split; [reflexivity|]. exists []. cbn. rewrite app_nil_r.
  split; [reflexivity|]. constructor.
Qed.

(** A state that differs from [st] in neither the key nor the calls. *)
Lemma key_kept_same (st st' : state) :
  kms_key_id st' = kms_key_id st → calls st' = calls st → key_kept st st'.
Proof.
  intros Hk Hc. split; [exact Hk|]. exists []. rewrite app_nil_r.
  split; [exact Hc|]. constructor.
Qed.

Lemma key_kept_one (st st' : state) (ev : event) :
  kms_key_id st' = kms_key_id st →
  calls st' = calls st ++ [ev] →
  event_uses_key (kms_key_id st) ev →
  key_kept st st'.
Proof.
  intros Hk Hc Hev. split; [exact Hk|]. exists [ev].
  split; [exact Hc|]. constructor; [exact Hev|constructor].
Qed.

Lemma key_kept_added (st st' : state) (added : list event) :
  kms_key_id st' = kms_key_id st →
  calls st' = calls st ++ added →
  Forall (event_uses_key (kms_key_id st)) added →
  key_kept st st'.
Proof.
  intros Hk Hc Hf. split; [exact Hk|]. exists added. split; assumption.
Qed.

(** The final state is explicit: read the added calls off it. *)
Ltac by_calls :=
  eapply key_kept_added;
  [ reflexivity
  | cbn -[String.append]; rewrite <- ?app_assoc; reflexivity
  | cbn -[String.append];
    repeat match goal with
           | |- Forall _ (_ :: _) => constructor
           | |- Forall _ [] => constructor
           end;
    cbn -[String.append]; auto ].

Section KeyKept.

Variable w : world.

Lemma create_bucket_key_kept (st : state) :
  key_kept st (create_bucket_if_not_exists w st).2.
Proof.
  unfold create_bucket_if_not_exists. unfold_M. cbn.
  destruct (s3_head_bucket w _ _) as [[]|e]; cbn; [by_calls|].
  destruct (s3_create_bucket w _ _) as [[]|e1]; cbn.
  2: { destruct (is_Exception e1); cbn; by_calls. }
  destruct (truthy (kms_key_id st)) eqn:Hkey; cbn; [|by_calls].
  destruct (s3_put_bucket_encryption w _ _ _ _) as [[]|e2]; cbn;
    try destruct (is_Exception e2); cbn; by_calls.
Qed.

Lemma fetch_weather_key_kept (city : string) (st : state) :
  key_kept st (fetch_weather w city st).2.
Proof.
  destruct (fetch_weather w city st) as [r st'] eqn:Hrun.
  destruct (fetch_weather_calls _ _ _ _ _ Hrun) as [Hc Hk].
  eapply key_kept_one; cbn; eauto. exact I.
Qed.

Lemma save_to_s3_key_kept (weather_data : nat) (city : string) (st : state) :
  key_kept st (save_to_s3 w weather_data city st).2.
Proof.
  unfold save_to_s3, file_name_of. unfold_M.
  cbn -[String.append truthy].
  destruct (truthy (deref st weather_data)); cbn -[String.append truthy].
  2: { apply key_kept_refl. }
  destruct (setitem (deref st weather_data) _ _) as [v|e];
    cbn -[String.append truthy].
  2: { destruct (is_Exception e); cbn; apply key_kept_same; reflexivity. }
  destruct (truthy (kms_key_id st)) eqn:Hkey; cbn -[String.append truthy].
  2: { apply key_kept_same; reflexivity. }
  destruct (s3_put_object w _ _) as [[]|e]; cbn -[String.append truthy];
    try destruct (is_Exception e); cbn -[String.append truthy]; by_calls.
Qed.

Lemma process_city_key_kept (city : string) (st : state) :
  key_kept st (process_city w city st).2.
Proof.
  unfold process_city, bind at 1 2 3, print, modify, get.
  pose proof (fetch_weather_key_kept city (add_line (fetching_line city) st))
    as Hfetch.
  destruct (fetch_weather w city _) as [[weather_data|e] st1]; cbn in Hfetch.
  2: { eapply key_kept_trans; [apply key_kept_add_line|exact Hfetch]. }
  assert (H1 : key_kept st st1).
  { eapply key_kept_trans; [apply key_kept_add_line|exact Hfetch]. }
  clear Hfetch.
  destruct (truthy (deref st1 weather_data)).
  2: { eapply key_kept_trans; [exact H1|apply key_kept_add_line]. }
  unfold bind, lift.
  repeat match goal with
         | |- context [getitem ?v ?k] =>
             destruct (getitem v k) as [?|?]; [|exact H1]
         | |- context [getitem_0 ?v] =>
             destruct (getitem_0 v) as [?|?]; [|exact H1]
         end.
  unfold print, modify. cbn -[save_to_s3].
  match goal with
  | |- context [save_to_s3 w weather_data city ?s] =>
      pose proof (save_to_s3_key_kept weather_data city s) as Hsave;
      destruct (save_to_s3 w weather_data city s) as [[[]|e] st2];
      cbn in Hsave |- *
  end.
  all: eapply key_kept_trans; [exact H1|];
    eapply key_kept_trans; [|first [apply key_kept_add_line|apply key_kept_refl]];
    eapply key_kept_trans; [|exact Hsave];
    apply key_kept_same; reflexivity.
Qed.

Lemma for_each_key_kept (cs : list string) (st : state) :
  key_kept st (for_each cs (process_city w) st).2.
Proof.
  revert st. induction cs as [|c cs IH]; intros st; cbn.
  - apply key_kept_refl.
  - unfold bind. pose proof (process_city_key_kept c st) as Hc.
    destruct (process_city w c st) as [[[]|e] st']; cbn in Hc |- *.
    + eapply key_kept_trans; [exact Hc|apply IH].
    + exact Hc.
Qed.

Lemma init_calls (st : state) :
  calls (WeatherDashboard_init w st).2 = calls st.
Proof.
  unfold WeatherDashboard_init. unfold_M. cbn.
  destruct (boto3_client w "s3") as [[]|e]; cbn; [|reflexivity].
  destruct (boto3_client w "kms") as [[]|e]; reflexivity.
Qed.

Lemma init_leaves_key_unset (st : state) :
  kms_key_id st = PNone → kms_key_id (WeatherDashboard_init w st).2 = PNone.
Proof.
  intros Hk. unfold WeatherDashboard_init. unfold_M. cbn.
  destruct (boto3_client w "s3") as [[]|e]; cbn; [|exact Hk].
  destruct (boto3_client w "kms") as [[]|e]; cbn; [reflexivity|exact Hk].
Qed.

Lemma create_kms_calls (st : state) :
  ∃ added,
    calls (create_kms_key_if_not_exists w st).2 = calls st ++ added ∧
    Forall (λ ev, is_create_key ev = true) added.
Proof.
  unfold create_kms_key_if_not_exists. unfold_M. cbn.
  destruct (negb _); cbn.
  2: { exists []. rewrite app_nil_r. split; [reflexivity|constructor]. }
  exists [EvCreateKey (kms_create_key w (calls st))].
  split; [|repeat constructor].
  destruct (kms_create_key w (calls st)) as [response|e]; cbn.
  2: { destruct (is_Exception e); reflexivity. }
  destruct (getitem response "KeyMetadata") as [metadata|e]; cbn.
  2: { destruct (is_Exception e); reflexivity. }
  destruct (getitem metadata "KeyId") as [key_id|e]; cbn.
  2: { destruct (is_Exception e); reflexivity. }
  destruct key_id; cbn; reflexivity.
Qed.

End KeyKept.

Section Run.

Variable w : world.

(** C9. The key identifier over a whole run, for every environment and every
    behaviour of the services.  The identifier is unset when the process
    starts and still unset when the dashboard is constructed; the value it
    has when [create_kms_key_if_not_exists] is over is the value it has at
    the end of the run; every [put_object] and every [put_bucket_encryption]
    of the run asks for [aws:kms] with exactly that value, and that value is
    set.  The operations that run after key provisioning only read the
    identifier. *)
Theorem key_identifier_fixed (env : gmap string string) :
  let st0 := initial env in
  let st1 :=
    ((WeatherDashboard_init w;; create_kms_key_if_not_exists w) st0).2 in
  let st := (main w st0).2 in
  kms_key_id st0 = PNone ∧
  kms_key_id (WeatherDashboard_init w st0).2 = PNone ∧
  kms_key_id st = kms_key_id st1 ∧
  Forall (event_uses_key (kms_key_id st1)) (calls st) ∧
  (∀ s, key_kept s (create_bucket_if_not_exists w s).2) ∧
  (∀ s city, key_kept s (fetch_weather w city s).2) ∧
  (∀ s weather_data city, key_kept s (save_to_s3 w weather_data city s).2).
Proof.
  intros st0 st1 st.
  split; [reflexivity|].
  split; [apply init_leaves_key_unset; reflexivity|].
  cut (kms_key_id st = kms_key_id st1 ∧
       Forall (event_uses_key (kms_key_id st1)) (calls st)).
  { intros [? ?]. split; [assumption|]. split; [assumption|].
    split; [apply create_bucket_key_kept|].
    split; [intros; apply fetch_weather_key_kept|].
    intros; apply save_to_s3_key_kept. }
  subst st st1. unfold main, bind.
  pose proof (init_calls w st0) as Hinit.
  destruct (WeatherDashboard_init w st0) as [[[]|e] sa];
    cbn [snd fst] in Hinit |- *.
  2: { split; [reflexivity|]. rewrite Hinit. constructor. }
  destruct (create_kms_calls w sa) as (added & Hkms & Hadded).
  assert (Hsb : ∀ k, Forall (event_uses_key k)
                       (calls (create_kms_key_if_not_exists w sa).2)).
  { intros k. rewrite Hkms, Hinit. cbn. eapply Forall_impl; [exact Hadded|].
    intros [] ?; try discriminate. exact I. }
  destruct (create_kms_key_if_not_exists w sa) as [[[]|e] sb];
    cbn [snd fst] in Hsb |- *.
  2: { split; [reflexivity|apply Hsb]. }
  pose proof (create_bucket_key_kept w sb) as Hb.
  destruct (create_bucket_if_not_exists w sb) as [[[]|e] sc];
    cbn [snd fst] in Hb |- *.
  - pose proof (key_kept_trans _ _ _ Hb (for_each_key_kept w cities sc))
      as [Hk (added' & Hc & Hf)].
    split; [exact Hk|]. rewrite Hc. apply Forall_app.
    split; [apply Hsb|exact Hf].
  - destruct Hb as [Hk (added' & Hc & Hf)].
    split; [exact Hk|]. rewrite Hc. apply Forall_app.
    split; [apply Hsb|exact Hf].
Qed.

(** C5. A city of the fixed list whose fetch returns the no-data sentinel:
    whatever the run did before reaching the city, the only call made for it
    is the request to the provider; no [put_object] is added to the history,
    the failure line is printed and the run goes on with the cities after
    it, none of which is that city again. *)
Theorem no_write_without_data (pre rest : list string) (city : string)
        (st0 st st1 : state) (weather_data : nat) :
  cities = pre ++ city :: rest →
  (provision w;; for_each pre (process_city w)) st0 = (Normal tt, st) →
  fetch_weather w city (add_line (fetching_line city) st)
    = (Normal weather_data, st1) →
  deref st1 weather_data = PNone →
  calls st1 =
    calls st ++
    [EvRequestsGet base_url (params_of (api_key st) city)
       (requests_get w (calls st) base_url (params_of (api_key st) city))] ∧
  put_objects (calls st1) = put_objects (calls st) ∧
  main w st0 =
    for_each rest (process_city w) (add_line (failed_line city) st1) ∧
  calls (add_line (failed_line city) st1) = calls st1 ∧
  (city ∉ pre) ∧ (city ∉ rest).
Proof.
  intros Hc Hpre Hfetch Hnone.
  destruct (fetch_weather_calls _ _ _ _ _ Hfetch) as [Hcalls _].
  cbn in Hcalls. split; [exact Hcalls|].
  split; [rewrite Hcalls, put_objects_app, app_nil_r; reflexivity|].
  split; [|split; [reflexivity | exact (cities_NoDup _ _ _ Hc)]].
  rewrite (main_reaches _ _ _ _ _ _ Hc Hpre).
  unfold process_city, bind at 1 2 3 4, print, modify, get.
  rewrite Hfetch, Hnone. reflexivity.
Qed.

(** C10. A city of the fixed list whose fetch returns a true payload that
    lacks one of [main.temp], [main.feels_like], [main.humidity],
    [weather[0].description]: whatever the run did before reaching the city,
    [main] ends by raising a [KeyError], [TypeError] or [IndexError] (classes
    an [except Exception] would catch, but none is there), in the state the
    fetch left -- nothing is stored for the city and the cities after it are
    not processed. *)
Theorem incomplete_payload_aborts (pre rest : list string) (city : string)
        (st0 st st1 : state) (weather_data : nat) :
  cities = pre ++ city :: rest →
  (provision w;; for_each pre (process_city w)) st0 = (Normal tt, st) →
  fetch_weather w city (add_line (fetching_line city) st)
    = (Normal weather_data, st1) →
  truthy (deref st1 weather_data) = true →
  has_summary_fields (deref st1 weather_data) = false →
  ∃ e,
    main w st0 = (Raise e, st1) ∧
    is_lookup_error e = true ∧
    is_Exception e = true ∧
    calls st1 =
      calls st ++
      [EvRequestsGet base_url (params_of (api_key st) city)
         (requests_get w (calls st) base_url (params_of (api_key st) city))].
Proof.
  intros Hc Hpre Hfetch Htrue Hlacks.
  destruct (fetch_weather_calls _ _ _ _ _ Hfetch) as [Hcalls _].
  cbn in Hcalls.
  rewrite (main_reaches _ _ _ _ _ _ Hc Hpre).
  unfold process_city, bind at 1 2 3 4, print, modify, get.
  rewrite Hfetch, Htrue. clear Hfetch Htrue Hpre Hc.
  unfold has_summary_fields, has_key in Hlacks. unfold bind, lift.
  destruct (deref st1 weather_data) as [|b|z|f|s|l|top]; cbn;
    try (eexists; split; [reflexivity|]; repeat split; exact Hcalls).
  destruct (dict_get top "main") as [m|]; cbn;
    [|eexists; split; [reflexivity|]; repeat split; exact Hcalls].
  destruct m as [|b|z|f|s|l|m]; cbn;
    try (eexists; split; [reflexivity|]; repeat split; exact Hcalls).
  destruct (dict_get m "temp"); cbn;
    [|eexists; split; [reflexivity|]; repeat split; exact Hcalls].
  destruct (dict_get m "feels_like"); cbn;
    [|eexists; split; [reflexivity|]; repeat split; exact Hcalls].
  destruct (dict_get m "humidity"); cbn;
    [|eexists; split; [reflexivity|]; repeat split; exact Hcalls].
  destruct (dict_get top "weather") as [l|]; cbn;
    [|eexists; split; [reflexivity|]; repeat split; exact Hcalls].
  destruct l as [|b|z|f|[|a s]|[|c l]|l]; cbn;
    try (eexists; split; [reflexivity|]; repeat split; exact Hcalls).
  destruct c as [|b|z|f|s|l'|c]; cbn;
    try (eexists; split; [reflexivity|]; repeat split; exact Hcalls).
  destruct (dict_get c "description"); cbn; [discriminate|].
  eexists; split; [reflexivity|]; repeat split; exact Hcalls.
Qed.

End Run.

(** ** Beyond the claims: the methods one by one *)

Lemma deref_new (st : state) (v : pyval) :
  default PNone ((heap st ++ [v]) !! length (heap st)) = v.
Proof. rewrite list_lookup_middle; reflexivity. Qed.

Lemma deref_old (st : state) (v : pyval) (l : nat) :
  l < length (heap st) →
  default PNone ((heap st ++ [v]) !! l) = deref st l.
Proof. intros Hl. unfold deref. rewrite lookup_app_l; [reflexivity|exact Hl]. Qed.

Lemma dict_get_set_ne (d : list (string * pyval)) (k k' : string) (v : pyval) :
  k' ≠ k → dict_get (dict_set d k v) k' = dict_get d k'.
Proof.
  intros Hne. induction d as [|[k0 v0] d IH]; cbn.
  - apply String.eqb_neq in Hne. rewrite String.eqb_sym, Hne. reflexivity.
  - destruct (String.eqb k0 k) eqn:E; cbn.
    + apply String.eqb_eq in E. subst k0.
      assert (String.eqb k k' = false) as ->
        by (apply String.eqb_neq; congruence).
      reflexivity.
    + destruct (String.eqb k0 k'); [reflexivity|exact IH].
Qed.

Section Fetch.

Variable w : world.


(** X2. The three failures [fetch_weather] turns into "no data": the request
    raises a [RequestException]; the status is in 400..599 (the body is then
    not read, even when it is JSON); the body is not JSON.  In each case the
    result is a reference to [None], one error line is printed and nothing
    is raised. *)
Theorem fetch_failure_is_no_data (city : string) (st : state) :
  let out := requests_get w (calls st) base_url (params_of (api_key st) city) in
  match out with
  | Raised e => is_RequestException e = true
  | Returned resp => is_error_status resp = true ∨ json_body resp = None
  end →
  ∃ e st',
    fetch_weather w city st = (Normal (length (heap st)), st') ∧
    deref st' (length (heap st)) = PNone ∧
    is_RequestException e = true ∧
    stdout st' = stdout st ++ [[Lit "Error fetching weather data: "; Err e]] ∧
    calls st' =
      calls st ++ [EvRequestsGet base_url (params_of (api_key st) city) out].
Proof.
  intros out Hout. subst out.
  unfold fetch_weather, params_of, base_url, is_error_status in *.
  unfold_M. cbn.
  destruct (requests_get w _ _ _) as [resp|e]; cbn.
  - destruct (_ && _)%bool eqn:Hstatus; cbn.
    + exists (Exc RequestException "HTTPError"). eexists.
      split; [reflexivity|]. unfold deref. cbn.
      split; [apply deref_new|]. repeat split.
    + destruct Hout as [Hout|Hout]; [discriminate|]. rewrite Hout. cbn.
      exists (Exc RequestException "JSONDecodeError"). eexists.
      split; [reflexivity|]. unfold deref. cbn.
      split; [apply deref_new|]. repeat split.
  - rewrite Hout. cbn.
    exists e. eexists. split; [reflexivity|]. unfold deref. cbn.
    split; [apply deref_new|]. split; [exact Hout|]. split; reflexivity.
Qed.

(** X3. [fetch_weather] catches [RequestException] only: an exception of
    another class raised by the request leaves [fetch_weather], and with it
    the loop body of [main], after the request and nothing else. *)
Theorem fetch_lets_other_exceptions_through (city : string) (st : state)
        (e : exc) :
  requests_get w (calls st) base_url (params_of (api_key st) city)
    = Raised e →
  is_RequestException e = false →
  fetch_weather w city st =
    (Raise e,
     add_call (EvRequestsGet base_url (params_of (api_key st) city) (Raised e))
              st) ∧
  process_city w city st =
    (Raise e,
     add_call (EvRequestsGet base_url (params_of (api_key st) city) (Raised e))
              (add_line (fetching_line city) st)).
Proof.
  intros Hget Hcls.
  unfold process_city, fetch_weather, params_of, base_url in *.
  unfold_M. cbn. rewrite Hget. cbn. rewrite Hcls. split; reflexivity.
Qed.

End Fetch.

Section Provisioning.

Variable w : world.

(** With a non-empty identifier in the environment the method takes it and
    prints one line. *)
Lemma create_kms_reuses (st : state) (k : string) :
  environ st !! "AWS_KMS_KEY_ID" = Some k →
  k ≠ "" →
  create_kms_key_if_not_exists w st =
    (Normal tt,
     add_line [Lit "Using existing KMS key: "; Val (PStr k)]
              (set_kms_key_id (PStr k) st)).
Proof.
  intros Henv Hk. pose proof (truthy_PStr k Hk) as Ht. cbn in Ht.
  unfold create_kms_key_if_not_exists. unfold_M. cbn. rewrite Henv. cbn.
  rewrite Ht. reflexivity.
Qed.

(** The identifier the environment gives is false: absent or empty. *)
Lemma getenv_unset (st : state) :
  environ st !! "AWS_KMS_KEY_ID" = None ∨
  environ st !! "AWS_KMS_KEY_ID" = Some "" →
  truthy (match environ st !! "AWS_KMS_KEY_ID" with
          | Some s => PStr s
          | None => PNone
          end) = false.
Proof. intros [->| ->]; reflexivity. Qed.


(** X5. A key that cannot be created stays unset.  With no identifier in the
    environment, when [create_key] raises an [Exception] or answers without
    a [KeyMetadata.KeyId], the method raises nothing, prints the error, and
    leaves the identifier false and [os.environ] as it was. *)
Theorem ensure_key_failure_leaves_unset (st : state) :
  environ st !! "AWS_KMS_KEY_ID" = None ∨
  environ st !! "AWS_KMS_KEY_ID" = Some "" →
  match kms_create_key w (calls st) with
  | Raised e => is_Exception e = true
  | Returned response => ∃ e, key_id_of response = Raise e
  end →
  ∃ e st',
    create_kms_key_if_not_exists w st = (Normal tt, st') ∧
    truthy (kms_key_id st') = false ∧
    environ st' = environ st ∧
    last (stdout st') = Some [Lit "Error creating or using KMS key: "; Err e] ∧
    calls st' = calls st ++ [EvCreateKey (kms_create_key w (calls st))].
Proof.
  intros Henv Hfail. pose proof (getenv_unset st Henv) as Hunset.
  unfold create_kms_key_if_not_exists. unfold_M. cbn.
  rewrite Hunset. cbn.
  destruct (kms_create_key w (calls st)) as [response|e]; cbn.
  - destruct Hfail as [e He]. unfold key_id_of in He.
    destruct response as [|b|z|f|s|l|d]; cbn in He |- *;
      try (injection He as <-; do 2 eexists; split; [reflexivity|]; cbn;
           rewrite last_snoc; repeat split; exact Hunset).
    destruct (dict_get d "KeyMetadata") as [metadata|]; cbn in He |- *.
    2: { injection He as <-. do 2 eexists. split; [reflexivity|]. cbn.
         rewrite last_snoc. repeat split. exact Hunset. }
    destruct metadata as [|b|z|f|s|l|m]; cbn in He |- *;
      try (injection He as <-; do 2 eexists; split; [reflexivity|]; cbn;
           rewrite last_snoc; repeat split; exact Hunset).
    destruct (dict_get m "KeyId"); [discriminate|]. cbn.
    injection He as <-. do 2 eexists. split; [reflexivity|]. cbn.
    rewrite last_snoc. repeat split. exact Hunset.
  - rewrite Hfail. cbn. exists e. eexists. split; [reflexivity|]. cbn.
    rewrite last_snoc. repeat split. exact Hunset.
Qed.

(** X7. Every failure of the existence check counts as "no bucket".
    Whatever [head_bucket] raises -- a 404, a denied access, even an
    exception outside [Exception] -- the next call is [create_bucket] on the
    same name. *)
Theorem head_failure_means_create (st : state) (e : exc) :
  s3_head_bucket w (calls st) (bucket_name st) = Raised e →
  let b := bucket_name st in
  let h1 := calls st ++ [EvHeadBucket b (Raised e)] in
  ∃ rest,
    calls (create_bucket_if_not_exists w st).2 =
      h1 ++ EvCreateBucket b (s3_create_bucket w h1 b) :: rest ∧
    (stdout st ++ [[Lit "Creating bucket "; Val b]])
      `prefix_of` stdout (create_bucket_if_not_exists w st).2.
Proof.
  intros Hhead b h1. subst b h1.
  unfold create_bucket_if_not_exists. unfold_M. cbn. rewrite Hhead. cbn.
  destruct (s3_create_bucket w _ _) as [[]|e1]; cbn;
    [destruct (truthy (kms_key_id st)); cbn;
     [destruct (s3_put_bucket_encryption w _ _ _ _) as [[]|e2]; cbn;
      try destruct (is_Exception e2); cbn|]
    |destruct (is_Exception e1); cbn];
    eexists;
    (split;
     [ rewrite <- !app_assoc; reflexivity
     | repeat first [reflexivity | apply prefix_app_r] ]).
Qed.

(** X8. A bucket that cannot be created is not configured.  When the
    existence check fails and [create_bucket] raises an [Exception], the
    method raises nothing, prints the error and makes no
    [put_bucket_encryption] call, whatever the key identifier. *)
Theorem create_failure_skips_encryption (st : state) (e e1 : exc) :
  let b := bucket_name st in
  let h1 := calls st ++ [EvHeadBucket b (Raised e)] in
  s3_head_bucket w (calls st) b = Raised e →
  s3_create_bucket w h1 b = Raised e1 →
  is_Exception e1 = true →
  ∃ st',
    create_bucket_if_not_exists w st = (Normal tt, st') ∧
    calls st' = h1 ++ [EvCreateBucket b (Raised e1)] ∧
    stdout st' =
      stdout st ++ [[Lit "Creating bucket "; Val b];
                    [Lit "Error creating bucket: "; Err e1]].
Proof.
  intros b h1 Hhead Hcreate Hcls. subst b h1.
  unfold create_bucket_if_not_exists. unfold_M. cbn. rewrite Hhead. cbn.
  rewrite Hcreate. cbn. rewrite Hcls. cbn.
  eexists. split; [reflexivity|]. cbn.
  split; [reflexivity|]. rewrite <- app_assoc. reflexivity.
Qed.

End Provisioning.

Lemma getitem_error (v : pyval) (k : string) (e : exc) :
  getitem v k = Raise e → is_Exception e = true.
Proof.
  destruct v as [|b|z|f|s|l|d]; cbn; try (intros [= <-]; reflexivity).
  destruct (dict_get d k); [discriminate|]. intros [= <-]. reflexivity.
Qed.

Lemma setitem_error (v : pyval) (k : string) (x : pyval) (e : exc) :
  setitem v k x = Raise e → is_Exception e = true ∧ exc_cls e = TypeError.
Proof.
  destruct v as [|b|z|f|s|l|d]; cbn; try discriminate;
    intros [= <-]; split; reflexivity.
Qed.

Section Store.

Variable w : world.

(** X9. A write that storage refuses.  With a dict payload and the key
    identifier set, when [put_object] raises an [Exception] the call returns
    [False] and raises nothing; the refused call is the only one made, the
    error is printed, and the payload keeps the timestamp it was given. *)
Theorem store_put_failure_returns_false (weather_data : nat) (city : string)
        (st : state) (d : list (string * pyval)) (e : exc) :
  let timestamp := strftime (datetime_now w (calls st)) in
  let stamped := PDict (dict_set d "timestamp" (PStr timestamp)) in
  let args := PutObjectArgs (bucket_name st) (file_name_of city timestamp)
                            (JsonDumps stamped) "application/json" "aws:kms"
                            (kms_key_id st) in
  deref st weather_data = PDict d →
  truthy (PDict d) = true →
  truthy (kms_key_id st) = true →
  s3_put_object w (calls st) args = Raised e →
  is_Exception e = true →
  ∃ st',
    save_to_s3 w weather_data city st = (Normal false, st') ∧
    calls st' = calls st ++ [EvPutObject args (Raised e)] ∧
    deref st' weather_data = stamped ∧
    last (stdout st') = Some [Lit "Error saving to S3: "; Err e].
Proof.
  intros timestamp stamped args Hd Ht Hkey Hput Hcls.
  subst timestamp stamped args.
  assert (Hl : heap st !! weather_data = Some (PDict d)).
  { rewrite <- Hd. apply deref_truthy. rewrite Hd. exact Ht. }
  assert (Hst : ∀ v,
             default PNone (<[weather_data := v]> (heap st) !! weather_data) = v).
  { intros v. rewrite list_lookup_insert_eq; [reflexivity|].
    eapply lookup_lt_Some, Hl. }
  unfold save_to_s3. unfold_M. cbn -[String.append truthy file_name_of].
  rewrite Hd, Ht. cbn -[String.append truthy file_name_of].
  rewrite Hd. cbn -[String.append truthy file_name_of].
  rewrite Hkey. cbn -[String.append truthy file_name_of].
  unfold deref. cbn -[String.append truthy file_name_of].
  rewrite Hst, Hput. cbn -[String.append truthy file_name_of].
  rewrite Hcls. cbn -[String.append truthy file_name_of].
  eexists. split; [reflexivity|]. cbn -[String.append truthy file_name_of].
  rewrite Hst, last_snoc. repeat split.
Qed.

(** X10. A payload that is true but is not a dict (a JSON list, string or
    number): stamping it raises a [TypeError], which is caught.  The call
    returns [False], makes no call to storage even with the key identifier
    set, prints the error and changes no object. *)
Theorem store_rejects_non_dict (weather_data : nat) (city : string)
        (st : state) :
  truthy (deref st weather_data) = true →
  (∀ d, deref st weather_data ≠ PDict d) →
  ∃ e st',
    save_to_s3 w weather_data city st = (Normal false, st') ∧
    exc_cls e = TypeError ∧
    calls st' = calls st ∧
    heap st' = heap st ∧
    stdout st' = stdout st ++ [[Lit "Error saving to S3: "; Err e]].
Proof.
  intros Ht Hnd.
  unfold save_to_s3. unfold_M. cbn -[String.append truthy].
  rewrite Ht. cbn -[String.append truthy].
  destruct (setitem (deref st weather_data) _ _) as [v|e] eqn:Hset.
  { destruct (deref st weather_data); try discriminate.
    exfalso. eapply Hnd. reflexivity. }
  destruct (setitem_error _ _ _ _ Hset) as [Hcls Hty].
  cbn -[String.append truthy]. rewrite Hcls. cbn.
  exists e. eexists. split; [reflexivity|]. repeat split. exact Hty.
Qed.

(** X11. What [save_to_s3] leaves alone, whatever the services do: every
    other object, every field of the payload other than [timestamp], the
    environment and the configuration of the dashboard. *)
Theorem store_touches_timestamp_only (weather_data : nat) (city : string)
        (st : state) :
  let st' := (save_to_s3 w weather_data city st).2 in
  (∀ l, l ≠ weather_data → deref st' l = deref st l) ∧
  (∀ k, k ≠ "timestamp" →
        getitem (deref st' weather_data) k = getitem (deref st weather_data) k) ∧
  environ st' = environ st ∧
  api_key st' = api_key st ∧
  bucket_name st' = bucket_name st.
Proof.
  intros st'. subst st'.
  unfold save_to_s3, file_name_of. unfold_M. cbn -[String.append truthy].
  destruct (truthy (deref st weather_data)) eqn:Ht;
    cbn -[String.append truthy].
  2: { repeat split. }
  pose proof (deref_truthy _ _ Ht) as Hl.
  assert (Hst : ∀ v,
             default PNone (<[weather_data := v]> (heap st) !! weather_data) = v).
  { intros v. rewrite list_lookup_insert_eq; [reflexivity|].
    eapply lookup_lt_Some, Hl. }
  assert (Hother : ∀ v l, l ≠ weather_data →
             default PNone (<[weather_data := v]> (heap st) !! l)
             = default PNone (heap st !! l)).
  { intros v l Hne. rewrite list_lookup_insert_ne; [reflexivity|congruence]. }
  destruct (deref st weather_data) as [|b|z|f|s|l|d] eqn:Hd;
    cbn -[String.append truthy];
    try (repeat split; intros; unfold deref in *; cbn; rewrite ?Hd;
         reflexivity).
  assert (Hfields : ∀ k, k ≠ "timestamp" →
            getitem (PDict (dict_set d "timestamp"
                              (PStr (strftime (datetime_now w (calls st)))))) k
            = getitem (PDict d) k).
  { intros k Hk. cbn. rewrite dict_get_set_ne; [reflexivity|exact Hk]. }
  destruct (truthy (kms_key_id st)); cbn -[String.append truthy].
  2: { unfold deref. cbn [heap set_heap add_line add_call]. rewrite Hst.
       split; [intros; apply Hother; assumption|].
       split; [exact Hfields|]. repeat split. }
  unfold deref. cbn [heap set_heap add_line add_call]. rewrite ?Hst.
  destruct (s3_put_object w _ _) as [[]|e];
    cbn -[String.append truthy default];
    try destruct (is_Exception e); cbn -[String.append truthy default];
    rewrite ?Hst;
    (split; [intros; apply Hother; assumption|]);
    (split; [exact Hfields|]); repeat split.
Qed.

End Store.

(** *** The object key *)

Lemma string_length_app (a b : string) :
  String.length (a +:+ b) = String.length a + String.length b.
Proof.
  induction a as [|c a IH]; [reflexivity|].
  change (S (String.length (a +:+ b)) = S (String.length a + String.length b)).
  rewrite IH. reflexivity.
Qed.

(** Two concatenations with suffixes of the same length agree part by part. *)
Lemma string_app_inj (a c b d : string) :
  String.length b = String.length d →
  a +:+ b = c +:+ d → a = c ∧ b = d.
Proof.
  revert c. induction a as [|x a IH]; intros [|y c] Hlen Heq.
  - split; [reflexivity|exact Heq].
  - exfalso. apply (f_equal String.length) in Heq.
    rewrite !string_length_app in Heq. cbn [String.length] in Heq. lia.
  - exfalso. apply (f_equal String.length) in Heq.
    rewrite !string_length_app in Heq. cbn [String.length] in Heq. lia.
  - change (String x (a +:+ b) = String y (c +:+ d)) in Heq.
    injection Heq as -> Heq. destruct (IH c Hlen Heq) as [-> ->].
    split; reflexivity.
Qed.

Lemma string_app_inv_head (a b c : string) : a +:+ b = a +:+ c → b = c.
Proof.
  induction a as [|x a IH]; intros Heq; [exact Heq|].
  change (String x (a +:+ b) = String x (a +:+ c)) in Heq.
  injection Heq as Heq. apply IH, Heq.
Qed.

Lemma strftime_length (t : datetime) : String.length (strftime t) = 15.
Proof. reflexivity. Qed.

(** X12. The object key determines the city and the capture time: two
    writes get the same key only for the same city at the same formatted
    time (a four-digit year), so snapshots of different cities never
    overwrite each other, whatever characters the city names contain. *)
Theorem file_name_determines_city (city1 city2 : string) (t1 t2 : datetime) :
  four_digit_year t1 →
  four_digit_year t2 →
  file_name_of city1 (strftime t1) = file_name_of city2 (strftime t2) →
  city1 = city2 ∧ strftime t1 = strftime t2.
Proof.
  unfold file_name_of. intros _ _ Heq.
  apply string_app_inv_head in Heq.
  apply string_app_inj in Heq as [Hcity Heq].
  2: { rewrite !string_length_app, !strftime_length. reflexivity. }
  split; [exact Hcity|].
  apply string_app_inv_head in Heq.
  apply string_app_inj in Heq as [Hts _]; [exact Hts|reflexivity].
Qed.

(** ** Beyond the claims: what can leave a method *)

Section Escapes.

Variable w : world.

Lemma create_kms_raise (st st' : state) (e : exc) :
  create_kms_key_if_not_exists w st = (Raise e, st') →
  is_Exception e = false ∧ kms_create_key w (calls st) = Raised e.
Proof.
  unfold create_kms_key_if_not_exists. unfold_M. cbn.
  destruct (negb _); cbn; [|discriminate].
  destruct (kms_create_key w (calls st)) as [response|e0]; cbn.
  2: { destruct (is_Exception e0) eqn:Hcls; cbn; [discriminate|].
       intros [= <- <-]. split; [exact Hcls|reflexivity]. }
  destruct (getitem response "KeyMetadata") as [metadata|e1] eqn:H1; cbn.
  2: { rewrite (getitem_error _ _ _ H1). discriminate. }
  destruct (getitem metadata "KeyId") as [key_id|e2] eqn:H2; cbn.
  2: { rewrite (getitem_error _ _ _ H2). discriminate. }
  destruct key_id; cbn; discriminate.
Qed.

Lemma create_bucket_raise (st st' : state) (e : exc) :
  create_bucket_if_not_exists w st = (Raise e, st') →
  is_Exception e = false ∧
  ∃ h, s3_create_bucket w h (bucket_name st) = Raised e ∨
       s3_put_bucket_encryption w h (bucket_name st) "aws:kms"
                                (kms_key_id st) = Raised e.
Proof.
  unfold create_bucket_if_not_exists. unfold_M. cbn.
  destruct (s3_head_bucket w _ _) as [[]|e0]; cbn; [discriminate|].
  destruct (s3_create_bucket w _ _) as [[]|e1] eqn:Hcreate; cbn.
  2: { destruct (is_Exception e1) eqn:Hcls; cbn; [discriminate|].
       intros [= <- <-]. split; [exact Hcls|]. eexists. left. exact Hcreate. }
  destruct (truthy (kms_key_id st)); cbn; [|discriminate].
  destruct (s3_put_bucket_encryption w _ _ _ _) as [[]|e2] eqn:Hput; cbn;
    [discriminate|].
  destruct (is_Exception e2) eqn:Hcls; cbn; [discriminate|].
  intros [= <- <-]. split; [exact Hcls|]. eexists. right. exact Hput.
Qed.

Lemma fetch_weather_raise (city : string) (st st' : state) (e : exc) :
  fetch_weather w city st = (Raise e, st') →
  is_RequestException e = false ∧
  requests_get w (calls st) base_url (params_of (api_key st) city) = Raised e.
Proof.
  unfold fetch_weather, params_of, base_url. unfold_M. cbn.
  destruct (requests_get w _ _ _) as [resp|e0]; cbn.
  - destruct (_ && _)%bool; cbn; [discriminate|].
    destruct (json_body resp); cbn; discriminate.
  - destruct (is_RequestException e0) eqn:Hcls; cbn; [discriminate|].
    intros [= <- <-]. split; [exact Hcls|reflexivity].
Qed.

Lemma save_to_s3_raise (weather_data : nat) (city : string) (st st' : state)
      (e : exc) :
  save_to_s3 w weather_data city st = (Raise e, st') →
  is_Exception e = false ∧
  ∃ args, s3_put_object w (calls st) args = Raised e.
Proof.
  unfold save_to_s3, file_name_of. unfold_M. cbn -[String.append truthy].
  destruct (truthy (deref st weather_data)); cbn -[String.append truthy];
    [|discriminate].
  destruct (setitem (deref st weather_data) _ _) as [v|e0] eqn:Hset;
    cbn -[String.append truthy].
  2: { destruct (setitem_error _ _ _ _ Hset) as [-> _]. discriminate. }
  destruct (truthy (kms_key_id st)); cbn -[String.append truthy];
    [|discriminate].
  destruct (s3_put_object w _ _) as [[]|e1] eqn:Hput;
    cbn -[String.append truthy]; [discriminate|].
  destruct (is_Exception e1) eqn:Hcls; cbn; [discriminate|].
  intros [= <- <-]. split; [exact Hcls|]. eexists. exact Hput.
Qed.


End Escapes.

(** ** Beyond the claims: the traffic of a run *)

Lemma requests_sent_app (h1 h2 : list event) :
  requests_sent (h1 ++ h2) = requests_sent h1 ++ requests_sent h2.
Proof.
  induction h1 as [|ev h1 IH]; [reflexivity|].
  destruct ev; cbn; rewrite ?IH; reflexivity.
Qed.

Lemma traffic_refl (st : state) : traffic st st [] 0.
Proof.
  split; [reflexivity|]. split; [rewrite app_nil_r; reflexivity|lia].
Qed.

Lemma traffic_trans (st1 st2 st3 : state)
      (r1 r2 : list (list (string * pyval))) (n1 n2 : nat) :
  traffic st1 st2 r1 n1 → traffic st2 st3 r2 n2 →
  traffic st1 st3 (r1 ++ r2) (n1 + n2).
Proof.
  intros (Hk1 & Hr1 & Hp1) (Hk2 & Hr2 & Hp2).
  split; [congruence|]. split; [|lia].
  rewrite Hr2, Hr1, app_assoc. reflexivity.
Qed.

(** The final state is explicit: count the requests and the writes in it. *)
Ltac by_traffic :=
  split; [reflexivity|];
  split;
  [ cbn -[String.append]; rewrite ?requests_sent_app; cbn -[String.append];
    rewrite ?app_nil_r; reflexivity
  | cbn -[String.append]; rewrite ?put_objects_app, ?length_app;
    cbn -[String.append]; lia ].

Lemma config_kept_refl (st : state) : config_kept st st.
Proof.
  split; [reflexivity|]. split; [reflexivity|].
  exists []. rewrite app_nil_r. split; [reflexivity|constructor].
Qed.

Lemma config_kept_trans (st1 st2 st3 : state) :
  config_kept st1 st2 → config_kept st2 st3 → config_kept st1 st3.
Proof.
  intros (Hk1 & Hb1 & a1 & Hc1 & Hf1) (Hk2 & Hb2 & a2 & Hc2 & Hf2).
  split; [congruence|]. split; [congruence|]. exists (a1 ++ a2). split.
  - rewrite Hc2, Hc1, app_assoc. reflexivity.
  - rewrite Hb1 in Hf2. apply Forall_app. split; assumption.
Qed.

Ltac by_config :=
  split; [reflexivity|]; split; [reflexivity|];
  first
    [ exists []; split;
      [ cbn -[String.append]; rewrite app_nil_r; reflexivity | constructor ]
    | eexists; split;
      [ cbn -[String.append]; rewrite <- ?app_assoc; reflexivity
      | cbn -[String.append];
        repeat match goal with
               | |- Forall _ (_ :: _) => constructor
               | |- Forall _ [] => constructor
               end;
        cbn -[String.append]; auto ] ].

Section Traffic.

Variable w : world.

Lemma create_kms_traffic (st : state) :
  traffic st (create_kms_key_if_not_exists w st).2 [] 0 ∧
  config_kept st (create_kms_key_if_not_exists w st).2.
Proof.
  unfold create_kms_key_if_not_exists. unfold_M. cbn.
  destruct (negb _); cbn; [|split; [by_traffic|by_config]].
  destruct (kms_create_key w (calls st)) as [response|e]; cbn.
  2: { destruct (is_Exception e); cbn; (split; [by_traffic|by_config]). }
  destruct (getitem response "KeyMetadata") as [metadata|e]; cbn.
  2: { destruct (is_Exception e); cbn; (split; [by_traffic|by_config]). }
  destruct (getitem metadata "KeyId") as [key_id|e]; cbn.
  2: { destruct (is_Exception e); cbn; (split; [by_traffic|by_config]). }
  destruct key_id; cbn; (split; [by_traffic|by_config]).
Qed.

Lemma create_bucket_traffic (st : state) :
  traffic st (create_bucket_if_not_exists w st).2 [] 0 ∧
  config_kept st (create_bucket_if_not_exists w st).2.
Proof.
  unfold create_bucket_if_not_exists. unfold_M. cbn.
  destruct (s3_head_bucket w _ _) as [[]|e]; cbn;
    [split; [by_traffic|by_config]|].
  destruct (s3_create_bucket w _ _) as [[]|e1]; cbn.
  2: { destruct (is_Exception e1); cbn; (split; [by_traffic|by_config]). }
  destruct (truthy (kms_key_id st)); cbn; [|split; [by_traffic|by_config]].
  destruct (s3_put_bucket_encryption w _ _ _ _) as [[]|e2]; cbn;
    try destruct (is_Exception e2); cbn; (split; [by_traffic|by_config]).
Qed.

Lemma fetch_weather_traffic (city : string) (st : state) :
  traffic st (fetch_weather w city st).2 [params_of (api_key st) city] 0 ∧
  config_kept st (fetch_weather w city st).2.
Proof.
  unfold fetch_weather, params_of, base_url. unfold_M. cbn.
  destruct (requests_get w _ _ _) as [resp|e]; cbn.
  - destruct (_ && _)%bool; cbn; [split; [by_traffic|by_config]|].
    destruct (json_body resp); cbn; (split; [by_traffic|by_config]).
  - destruct (is_RequestException e); cbn; (split; [by_traffic|by_config]).
Qed.

Lemma save_to_s3_traffic (weather_data : nat) (city : string) (st : state) :
  traffic st (save_to_s3 w weather_data city st).2 [] 1 ∧
  config_kept st (save_to_s3 w weather_data city st).2.
Proof.
  unfold save_to_s3, file_name_of. unfold_M. cbn -[String.append truthy].
  destruct (truthy (deref st weather_data)); cbn -[String.append truthy].
  2: { split; [by_traffic|by_config]. }
  destruct (setitem (deref st weather_data) _ _) as [v|e];
    cbn -[String.append truthy].
  2: { destruct (is_Exception e); cbn; (split; [by_traffic|by_config]). }
  destruct (truthy (kms_key_id st)); cbn -[String.append truthy].
  2: { split; [by_traffic|by_config]. }
  destruct (s3_put_object w _ _) as [[]|e]; cbn -[String.append truthy];
    try destruct (is_Exception e); cbn -[String.append truthy];
    (split; [by_traffic|by_config]).
Qed.

Lemma add_line_traffic (st : state) (l : list piece) :
  traffic st (add_line l st) [] 0 ∧ config_kept st (add_line l st).
Proof. split; [by_traffic|by_config]. Qed.

Lemma process_city_traffic (city : string) (st : state) :
  traffic st (process_city w city st).2 [params_of (api_key st) city] 1 ∧
  config_kept st (process_city w city st).2.
Proof.
  remember (process_city w city st) as res eqn:Hres.
  unfold process_city, bind at 1 2 3, print, modify, get in Hres.
  destruct (add_line_traffic st (fetching_line city)) as [Ta Ca].
  destruct (fetch_weather_traffic city (add_line (fetching_line city) st))
    as [Tf Cf].
  cbn [api_key add_line] in Tf.
  pose proof (traffic_trans _ _ _ _ _ _ _ Ta Tf) as T1.
  pose proof (config_kept_trans _ _ _ Ca Cf) as C1.
  clear Ta Ca Tf Cf. cbn [app Nat.add] in T1.
  destruct (fetch_weather w city _) as [[weather_data|e] st1];
    cbn [snd fst] in T1, C1.
  2: { subst res. split; [|exact C1].
       destruct T1 as (Hk & Hr & Hp). split; [exact Hk|].
       split; [exact Hr|cbn [snd]; lia]. }
  assert (Hstop : traffic st st1 [params_of (api_key st) city] 1).
  { destruct T1 as (Hk & Hr & Hp). split; [exact Hk|]. split; [exact Hr|lia]. }
  destruct (truthy (deref st1 weather_data)).
  2: { subst res. cbn [snd].
       destruct (add_line_traffic st1 (failed_line city)) as [Tl Cl].
       split; [|eapply config_kept_trans; eassumption].
       pose proof (traffic_trans _ _ _ _ _ _ _ Hstop Tl) as T2.
       rewrite app_nil_r in T2. destruct T2 as (Hk & Hr & Hp).
       split; [exact Hk|]. split; [exact Hr|lia]. }
  unfold bind, lift in Hres.
  repeat match type of Hres with
         | context [getitem ?v ?k] =>
             destruct (getitem v k) as [?|?];
             [|subst res; split; [exact Hstop|exact C1]]
         | context [getitem_0 ?v] =>
             destruct (getitem_0 v) as [?|?];
             [|subst res; split; [exact Hstop|exact C1]]
         end.
  unfold print, modify in Hres. cbn -[save_to_s3] in Hres.
  match type of Hres with
  | context [save_to_s3 w weather_data city ?s] =>
      destruct (save_to_s3_traffic weather_data city s) as [Ts Cs];
      assert (T0 : traffic st1 s [] 0) by by_traffic;
      assert (C0 : config_kept st1 s) by by_config;
      destruct (save_to_s3 w weather_data city s) as [[[]|e] st2];
      cbn [snd fst] in Ts, Cs
  end.
  all: pose proof (traffic_trans _ _ _ _ _ _ _
                     (traffic_trans _ _ _ _ _ _ _ T1 T0) Ts) as T2;
    pose proof (config_kept_trans _ _ _ (config_kept_trans _ _ _ C1 C0) Cs)
      as C2;
    cbn [app Nat.add] in T2; subst res; cbn [snd].
  - destruct (add_line_traffic st2
                [Lit "Weather data for "; Val (PStr city); Lit " saved to S3!"])
      as [Tl Cl].
    split; [|eapply config_kept_trans; eassumption].
    pose proof (traffic_trans _ _ _ _ _ _ _ T2 Tl) as T3.
    cbn [app Nat.add] in T3. exact T3.
  - split; [exact T2|exact C2].
  - split; [exact T2|exact C2].
Qed.

Lemma for_each_traffic (cs : list string) (st : state) :
  ∃ n : nat,
    (n ≤ length cs)%nat ∧
    traffic st (for_each cs (process_city w) st).2
            (map (params_of (api_key st)) (take n cs)) n ∧
    ((for_each cs (process_city w) st).1 = Normal tt → n = length cs) ∧
    config_kept st (for_each cs (process_city w) st).2.
Proof.
  revert st. induction cs as [|c cs IH]; intros st; cbn.
  - exists 0. split; [lia|]. split; [apply traffic_refl|].
    split; [reflexivity|apply config_kept_refl].
  - unfold bind. destruct (process_city_traffic c st) as [Tc Cc].
    destruct (process_city w c st) as [[[]|e] st1]; cbn [snd fst] in Tc, Cc |- *.
    + destruct (IH st1) as (n & Hn & Tn & Hall & Cn).
      exists (S n). split; [lia|]. split; [|split].
      * pose proof (traffic_trans _ _ _ _ _ _ _ Tc Tn) as T.
        destruct Tc as (Hk & _). rewrite Hk in T. exact T.
      * intros Hr. rewrite (Hall Hr). reflexivity.
      * eapply config_kept_trans; eassumption.
    + exists 1. split; [lia|]. split; [|split].
      * exact Tc.
      * discriminate.
      * exact Cc.
Qed.

End Traffic.

Section WholeRun.

Variable w : world.

Lemma init_config (st : state) :
  let st' := (WeatherDashboard_init w st).2 in
  api_key st' = match environ st !! "OPENWEATHER_API_KEY" with
                | Some s => PStr s
                | None => PNone
                end ∧
  bucket_name st' = match environ st !! "AWS_BUCKET_NAME" with
                    | Some s => PStr s
                    | None => PNone
                    end ∧
  calls st' = calls st.
Proof.
  unfold WeatherDashboard_init. unfold_M. cbn.
  destruct (boto3_client w "s3") as [[]|e]; cbn; [|repeat split].
  destruct (boto3_client w "kms") as [[]|e]; cbn; repeat split.
Qed.

(** What [main] does once the dashboard is constructed. *)
Lemma after_init_traffic (st : state) :
  let tail := (create_kms_key_if_not_exists w;;
               create_bucket_if_not_exists w;;
               for_each cities (process_city w)) in
  ∃ n : nat,
    (n ≤ 3)%nat ∧
    traffic st (tail st).2 (map (params_of (api_key st)) (take n cities)) n ∧
    ((tail st).1 = Normal tt → n = 3) ∧
    config_kept st (tail st).2.
Proof.
  intros tail. subst tail. unfold bind.
  destruct (create_kms_traffic w st) as [Tk Ck].
  destruct (create_kms_key_if_not_exists w st) as [[[]|e] sb];
    cbn [snd fst] in Tk, Ck |- *.
  2: { exists 0. split; [lia|]. split; [exact Tk|].
       split; [discriminate|exact Ck]. }
  destruct (create_bucket_traffic w sb) as [Tb Cb].
  destruct (create_bucket_if_not_exists w sb) as [[[]|e] sc];
    cbn [snd fst] in Tb, Cb |- *.
  2: { exists 0. split; [lia|]. split; [|split; [discriminate|]].
       - apply (traffic_trans _ _ _ _ _ _ _ Tk Tb).
       - eapply config_kept_trans; eassumption. }
  destruct (for_each_traffic w cities sc) as (n & Hn & Tn & Hall & Cn).
  exists n. split; [exact Hn|]. split; [|split; [exact Hall|]].
  - pose proof (traffic_trans _ _ _ _ _ _ _
                  (traffic_trans _ _ _ _ _ _ _ Tk Tb) Tn) as T.
    destruct Tk as (Hk1 & _). destruct Tb as (Hk2 & _).
    rewrite Hk2, Hk1 in T. exact T.
  - eapply config_kept_trans; [|exact Cn].
    eapply config_kept_trans; eassumption.
Qed.

(** X15. The provider is asked about the cities of the list, in the order
    of the list, each at most once, always with the configured API key and
    imperial units; the run writes at most one object per city it asked
    about; a run that ends normally asked about all three.  This holds for
    every environment and every behaviour of the services, whether [main]
    ends normally or raises. *)
Theorem requests_follow_city_list (env : gmap string string) :
  let run := main w (initial env) in
  let key := match env !! "OPENWEATHER_API_KEY" with
             | Some s => PStr s
             | None => PNone
             end in
  ∃ n : nat,
    (n ≤ 3)%nat ∧
    requests_sent (calls run.2) = map (params_of key) (take n cities) ∧
    (length (put_objects (calls run.2)) ≤ n)%nat ∧
    (run.1 = Normal tt → n = 3).
Proof.
  intros run key. subst key.
  assert (Hrun : run = (WeatherDashboard_init w;;
                        create_kms_key_if_not_exists w;;
                        create_bucket_if_not_exists w;;
                        for_each cities (process_city w)) (initial env))
    by reflexivity.
  clearbody run. unfold bind at 1 in Hrun.
  destruct (init_config (initial env)) as (Hk & _ & Hc).
  cbn [environ calls initial] in Hk, Hc.
  destruct (WeatherDashboard_init w (initial env)) as [[[]|e] sa];
    cbn [snd fst] in Hk, Hc; subst run; cbn [snd fst].
  2: { exists 0. rewrite Hc. split; [lia|]. split; [reflexivity|].
       split; [cbn; lia|discriminate]. }
  destruct (after_init_traffic sa) as (n & Hn & (_ & Hr & Hp) & Hall & _).
  rewrite Hc in Hr, Hp. cbn in Hr, Hp. rewrite Hk in Hr.
  exists n. split; [exact Hn|]. split; [exact Hr|].
  split; [exact Hp|exact Hall].
Qed.

(** X16. Every storage call of a run -- existence check, creation,
    encryption configuration, write -- names the bucket of the
    [AWS_BUCKET_NAME] variable as it was when the dashboard was constructed
    ([None] when the variable is absent), and every write declares its body
    as [application/json]. *)
Theorem storage_calls_name_configured_bucket (env : gmap string string) :
  let run := main w (initial env) in
  let bucket := match env !! "AWS_BUCKET_NAME" with
                | Some s => PStr s
                | None => PNone
                end in
  Forall (event_names_bucket bucket) (calls run.2) ∧
  bucket_name run.2 = bucket.
Proof.
  intros run bucket. subst bucket.
  assert (Hrun : run = (WeatherDashboard_init w;;
                        create_kms_key_if_not_exists w;;
                        create_bucket_if_not_exists w;;
                        for_each cities (process_city w)) (initial env))
    by reflexivity.
  clearbody run. unfold bind at 1 in Hrun.
  destruct (init_config (initial env)) as (_ & Hb & Hc).
  cbn [environ calls initial] in Hb, Hc.
  destruct (WeatherDashboard_init w (initial env)) as [[[]|e] sa];
    cbn [snd fst] in Hb, Hc; subst run; cbn [snd fst].
  2: { rewrite Hc. split; [constructor|exact Hb]. }
  destruct (after_init_traffic sa)
    as (n & _ & _ & _ & Hb' & Hk' & added & Ha & Hf).
  rewrite Hc in Ha. cbn [app] in Ha. rewrite Hb in Hf.
  split; [rewrite Ha; exact Hf|]. rewrite Hk'. exact Hb.
Qed.

End WholeRun.

(** ** Beyond the claims: runs that complete *)

(** A payload with the fields of the summary: every subscript of lines
    137-140 succeeds. *)
Lemma summary_extraction (d : pyval) :
  has_summary_fields d = true →
  ∃ m l c temp feels_like humidity description,
    getitem d "main" = Normal m ∧
    getitem m "temp" = Normal temp ∧
    getitem m "feels_like" = Normal feels_like ∧
    getitem m "humidity" = Normal humidity ∧
    getitem d "weather" = Normal l ∧
    getitem_0 l = Normal c ∧
    getitem c "description" = Normal description.
Proof.
  unfold has_summary_fields, has_key.
  destruct d as [| | | | | |top]; try discriminate.
  destruct (dict_get top "main") as [[| | | | | |m]|] eqn:Emain;
    try discriminate.
  destruct (dict_get top "weather") as [[| | | | |[|[| | | | | |c] l]|]|]
    eqn:Eweather; try discriminate.
  destruct (dict_get m "temp") as [temp|] eqn:Etemp; [|discriminate].
  destruct (dict_get m "feels_like") as [feels_like|] eqn:Efeels;
    [|discriminate].
  destruct (dict_get m "humidity") as [humidity|] eqn:Ehumidity;
    [|discriminate].
  destruct (dict_get c "description") as [description|] eqn:Edescription;
    [|discriminate].
  intros _.
  exists (PDict m), (PList (PDict c :: l)), (PDict c), temp, feels_like,
    humidity, description.
  cbn. rewrite Emain, Eweather, Etemp, Efeels, Ehumidity, Edescription.
  repeat split.
Qed.

Section Completion.

Variable w : world.

(** The lines [main] prints for a payload, and what it does next. *)
Lemma process_city_complete (city : string) (st st1 : state)
      (weather_data : nat) :
  fetch_weather w city (add_line (fetching_line city) st)
    = (Normal weather_data, st1) →
  truthy (deref st1 weather_data) = true →
  has_summary_fields (deref st1 weather_data) = true →
  ∃ m l c temp feels_like humidity description,
    getitem (deref st1 weather_data) "main" = Normal m ∧
    getitem m "temp" = Normal temp ∧
    getitem m "feels_like" = Normal feels_like ∧
    getitem m "humidity" = Normal humidity ∧
    getitem (deref st1 weather_data) "weather" = Normal l ∧
    getitem_0 l = Normal c ∧
    getitem c "description" = Normal description ∧
    process_city w city st =
      (success <- save_to_s3 w weather_data city;;
       if success
       then print [Lit "Weather data for "; Val (PStr city);
                   Lit " saved to S3!"]
       else ret tt)
        (add_line [Lit "Conditions: "; Val description]
           (add_line [Lit "Humidity: "; Val humidity; Lit "%"]
              (add_line [Lit "Feels like: "; Val feels_like; Lit "°F"]
                 (add_line [Lit "Temperature: "; Val temp; Lit "°F"] st1)))).
Proof.
  intros Hfetch Htrue Hfields.
  destruct (summary_extraction _ Hfields)
    as (m & l & c & temp & feels_like & humidity & description
        & Hm & Ht & Hf & Hh & Hl & Hc & Hd).
  exists m, l, c, temp, feels_like, humidity, description.
  repeat (split; [assumption|]).
  unfold process_city, bind at 1 2 3, print, modify, get.
  rewrite Hfetch, Htrue. unfold bind at 1 2 3 4 5 6 7 8 9, lift.
  rewrite Hm, Ht, Hf, Hh, Hl, Hc, Hd. reflexivity.
Qed.

Lemma save_to_s3_stdout (weather_data : nat) (city : string) (st : state) :
  stdout st `prefix_of` stdout (save_to_s3 w weather_data city st).2.
Proof.
  unfold save_to_s3, file_name_of. unfold_M. cbn -[String.append truthy].
  destruct (truthy (deref st weather_data)); cbn -[String.append truthy];
    [|reflexivity].
  destruct (setitem (deref st weather_data) _ _) as [v|e];
    cbn -[String.append truthy].
  2: { destruct (is_Exception e); cbn;
       repeat first [reflexivity | apply prefix_app_r]. }
  destruct (truthy (kms_key_id st)); cbn -[String.append truthy].
  2: { repeat first [reflexivity | apply prefix_app_r]. }
  destruct (s3_put_object w _ _) as [[]|e]; cbn -[String.append truthy];
    try destruct (is_Exception e); cbn -[String.append truthy];
    repeat first [reflexivity | apply prefix_app_r].
Qed.


Lemma fetch_weather_value (city : string) (st st1 : state)
      (weather_data : nat) :
  fetch_weather w city st = (Normal weather_data, st1) →
  deref st1 weather_data = PNone ∨
  ∃ resp,
    requests_get w (calls st) base_url (params_of (api_key st) city)
      = Returned resp ∧
    is_error_status resp = false ∧
    json_body resp = Some (deref st1 weather_data).
Proof.
  unfold fetch_weather, params_of, base_url, is_error_status. unfold_M. cbn.
  destruct (requests_get w _ _ _) as [resp|e]; cbn.
  - destruct (_ && _)%bool eqn:Hstatus; cbn.
    + intros [= <- <-]. left. unfold deref. cbn. apply deref_new.
    + destruct (json_body resp) as [v|] eqn:Hbody; cbn; intros [= <- <-].
      * right. exists resp. unfold deref. cbn. rewrite deref_new.
        split; [reflexivity|]. split; [exact Hstatus|exact Hbody].
      * left. unfold deref. cbn. apply deref_new.
  - destruct (is_RequestException e); cbn; [|discriminate].
    intros [= <- <-]. left. unfold deref. cbn. apply deref_new.
Qed.

Section WellBehaved.

Hypothesis Hw : well_behaved w.

Lemma wb_init (st : state) :
  ∃ st', WeatherDashboard_init w st = (Normal tt, st').
Proof.
  unfold WeatherDashboard_init. unfold_M. cbn.
  rewrite (wb_s3_client w Hw), (wb_kms_client w Hw). cbn.
  eexists. reflexivity.
Qed.

Lemma wb_create_kms (st : state) :
  ∃ st', create_kms_key_if_not_exists w st = (Normal tt, st').
Proof.
  destruct (create_kms_key_if_not_exists w st) as [[[]|e] st'] eqn:Hrun;
    [eexists; reflexivity|].
  destruct (create_kms_raise w _ _ _ Hrun) as [Hcls Hcall].
  pose proof (wb_create_key w Hw (calls st)) as Hok.
  rewrite Hcall in Hok. cbn in Hok. congruence.
Qed.

Lemma wb_create_bucket (st : state) :
  ∃ st', create_bucket_if_not_exists w st = (Normal tt, st').
Proof.
  destruct (create_bucket_if_not_exists w st) as [[[]|e] st'] eqn:Hrun;
    [eexists; reflexivity|].
  destruct (create_bucket_raise w _ _ _ Hrun) as [Hcls (h & [Hcall|Hcall])].
  - pose proof (wb_create_bucket w Hw h (bucket_name st)) as Hok.
    rewrite Hcall in Hok. cbn in Hok. congruence.
  - pose proof (wb_put_bucket_encryption w Hw h (bucket_name st) "aws:kms"
                  (kms_key_id st)) as Hok.
    rewrite Hcall in Hok. cbn in Hok. congruence.
Qed.

Lemma wb_save_to_s3 (weather_data : nat) (city : string) (st : state) :
  ∃ success st', save_to_s3 w weather_data city st = (Normal success, st').
Proof.
  destruct (save_to_s3 w weather_data city st) as [[success|e] st'] eqn:Hrun;
    [do 2 eexists; reflexivity|].
  destruct (save_to_s3_raise w _ _ _ _ _ Hrun) as [Hcls (args & Hcall)].
  pose proof (wb_put_object w Hw (calls st) args) as Hok.
  rewrite Hcall in Hok. cbn in Hok. congruence.
Qed.

Lemma wb_process_city (city : string) (st : state) :
  ∃ st', process_city w city st = (Normal tt, st').
Proof.
  destruct (fetch_weather w city (add_line (fetching_line city) st))
    as [[weather_data|e] st1] eqn:Hfetch.
  2: { destruct (fetch_weather_raise w _ _ _ _ Hfetch) as [Hcls Hcall].
       match type of Hcall with
       | requests_get w ?h ?u ?p = _ =>
           pose proof (wb_requests_get w Hw h u p) as Hok
       end.
       rewrite Hcall in Hok. cbn in Hok. congruence. }
  destruct (truthy (deref st1 weather_data)) eqn:Htrue.
  2: { unfold process_city, bind at 1 2 3, print, modify, get.
       rewrite Hfetch, Htrue. eexists. reflexivity. }
  assert (Hfields : has_summary_fields (deref st1 weather_data) = true).
  { destruct (fetch_weather_value _ _ _ _ Hfetch) as [Hnone|(resp & Hget & Hs & Hb)].
    - rewrite Hnone in Htrue. discriminate.
    - eapply (wb_payload w Hw); eassumption. }
  destruct (process_city_complete _ _ _ _ Hfetch Htrue Hfields)
    as (m & l & c & temp & feels_like & humidity & description & Hrun).
  do 7 destruct Hrun as [_ Hrun]. rewrite Hrun. unfold bind.
  match goal with
  | |- context [save_to_s3 w weather_data city ?s] =>
      destruct (wb_save_to_s3 weather_data city s) as ([] & st2 & ->)
  end; eexists; reflexivity.
Qed.

Lemma wb_for_each (cs : list string) (st : state) :
  ∃ st', for_each cs (process_city w) st = (Normal tt, st').
Proof.
  revert st. induction cs as [|c cs IH]; intros st; cbn.
  - eexists. reflexivity.
  - unfold bind. destruct (wb_process_city c st) as (st1 & ->). apply IH.
Qed.


End WellBehaved.

End Completion.

(** ** Scenarios: the theorems at concrete runs, and the runs that differ *)

Section Scenarios.

Import Scenario.

(** C1. A run the policy does not cover: every service answers and the
    provider sends, with status 200, a payload without the summary fields.
    [main] ends with the [KeyError] of line 137: the bucket was provisioned,
    Calgary was requested, nothing was stored, and Ontario and New York were
    never requested. *)
Theorem run_aborts_on_bare_payload :
  let run := main (serving bare_payload) (initial env_with_key) in
  run.1 = Raise (Exc KeyError "main") ∧
  is_Exception (Exc KeyError "main") = true ∧
  truthy bare_payload = true ∧
  calls run.2 =
    [EvHeadBucket (PStr "weather-bucket")
       (Raised (Exc ClientError "Not Found"));
     EvCreateBucket (PStr "weather-bucket") (Returned tt);
     EvPutBucketEncryption (PStr "weather-bucket") "aws:kms" (PStr "key-123")
       (Returned tt);
     EvRequestsGet base_url (params_of (PStr "api-key") "Calgary")
       (Returned (HttpResponse 200 (Some bare_payload)))] ∧
  put_objects (calls run.2) = [].
Proof. vm_compute. repeat split. Qed.

(** C2, the run that differs: the payload is present and the key identifier
    is unset.  The call is rejected with [False], and the payload the caller
    holds has the [timestamp] field it did not have before. *)
Lemma store_rejection_stamps_payload :
  let st := holding PNone calgary_payload in
  let run := save_to_s3 (serving calgary_payload) 0 "Calgary" st in
  truthy (kms_key_id st) = false ∧
  run.1 = Normal false ∧
  getitem (deref st 0) "timestamp" = Raise (Exc KeyError "timestamp") ∧
  getitem (deref run.2 0) "timestamp" = Normal (PStr "20261103-094400") ∧
  deref run.2 0 ≠ deref st 0.
Proof.
  vm_compute. repeat split. intros H. discriminate H.
Qed.

Lemma store_rejections_witness :
  let st := holding PNone calgary_payload in
  truthy (deref st 0) = true ∧
  truthy (kms_key_id st) = false ∧
  ∃ st',
    save_to_s3 (serving calgary_payload) 0 "Calgary" st = (Normal false, st') ∧
    calls st' = calls st ∧
    getitem (deref st' 0) "timestamp" = Normal (PStr "20261103-094400").
Proof.
  cbv zeta. split; [reflexivity|]. split; [reflexivity|].
  destruct (store_rejections (serving calgary_payload) 0 "Calgary"
              (holding PNone calgary_payload)) as (_ & H & _).
  destruct (H eq_refl eq_refl) as (st' & Hrun & Hcalls & Hd).
  exists st'. split; [exact Hrun|]. split; [exact Hcalls|].
  rewrite Hd. reflexivity.
Defined.

(** C3, the run that differs: the bucket exists and the key identifier is
    set.  The existence check is the only call: no default encryption is
    bound to the bucket.  With the key identifier unset as well, the only
    line printed is the one that says the bucket exists. *)
Lemma existing_bucket_not_encrypted :
  let st := holding (PStr "key-123") calgary_payload in
  let run := create_bucket_if_not_exists (bucket_exists calgary_payload) st in
  let run' := create_bucket_if_not_exists (bucket_exists calgary_payload)
                (holding PNone calgary_payload) in
  truthy (kms_key_id st) = true ∧
  run.1 = Normal tt ∧
  calls run.2 = [EvHeadBucket (PStr "weather-bucket") (Returned tt)] ∧
  default_encryption (calls run.2) None = None ∧
  stdout run'.2 =
    [[Lit "Bucket "; Val (PStr "weather-bucket"); Lit " exists"]].
Proof. vm_compute. repeat split. Qed.

Lemma ensure_bucket_encryption_witness :
  let w := serving calgary_payload in
  let st := holding (PStr "key-123") calgary_payload in
  ∃ r st',
    create_bucket_if_not_exists w st = (r, st') ∧
    default_encryption (calls st') None = Some ("aws:kms", PStr "key-123").
Proof.
  cbv zeta.
  destruct (ensure_bucket_encryption (serving calgary_payload)
              (holding (PStr "key-123") calgary_payload)) as (_ & H).
  destruct (H (Exc ClientError "Not Found") eq_refl eq_refl) as [Hset _].
  destruct (Hset eq_refl) as (r & st' & Hrun & _ & Henc).
  exists r, st'. split; [exact Hrun|]. apply (Henc eq_refl).
Defined.

Lemma store_fails_without_key_witness :
  let st := holding PNone calgary_payload in
  truthy (kms_key_id st) = false ∧
  ∃ st',
    save_to_s3 (serving calgary_payload) 0 "Calgary" st = (Normal false, st') ∧
    calls st' = calls st ∧
    put_objects (calls st') = put_objects (calls st) ∧
    kms_key_id st' = kms_key_id st.
Proof.
  cbv zeta. split; [reflexivity|].
  apply (store_fails_without_key (serving calgary_payload) 0 "Calgary"
           (holding PNone calgary_payload)).
  reflexivity.
Defined.

Lemma no_write_without_data_witness :
  let w := unreachable in
  let st0 := initial env_with_key in
  let st := (provision w st0).2 in
  let st1 := (fetch_weather w "Calgary"
                (add_line (fetching_line "Calgary") st)).2 in
  deref st1 0 = PNone ∧
  put_objects (calls st1) = put_objects (calls st) ∧
  main w st0 =
    for_each ["Ontario"; "New York"] (process_city w)
             (add_line (failed_line "Calgary") st1).
Proof.
  cbv zeta. split; [reflexivity|].
  pose proof (no_write_without_data unreachable [] ["Ontario"; "New York"]
                "Calgary" (initial env_with_key)
                (provision unreachable (initial env_with_key)).2
                (fetch_weather unreachable "Calgary"
                   (add_line (fetching_line "Calgary")
                      (provision unreachable (initial env_with_key)).2)).2
                0) as H.
  destruct H as (_ & Hputs & Hmain & _).
  - reflexivity.
  - vm_compute. reflexivity.
  - vm_compute. reflexivity.
  - reflexivity.
  - split; [exact Hputs|exact Hmain].
Defined.

Lemma store_success_stamps_witness :
  let w := serving calgary_payload in
  let st := holding (PStr "key-123") calgary_payload in
  let st' := (save_to_s3 w 0 "Calgary" st).2 in
  save_to_s3 w 0 "Calgary" st = (Normal true, st') ∧
  ∃ d,
    deref st 0 = PDict d ∧
    getitem (deref st' 0) "timestamp" = Normal (PStr "20261103-094400") ∧
    put_objects (calls st') =
      [PutObjectArgs (PStr "weather-bucket")
         "weather-data/Calgary-20261103-094400.json"
         (JsonDumps (deref st' 0)) "application/json" "aws:kms"
         (PStr "key-123")].
Proof.
  cbv zeta.
  assert (Hrun : save_to_s3 (serving calgary_payload) 0 "Calgary"
                   (holding (PStr "key-123") calgary_payload)
                 = (Normal true,
                    (save_to_s3 (serving calgary_payload) 0 "Calgary"
                       (holding (PStr "key-123") calgary_payload)).2)).
  { vm_compute. reflexivity. }
  split; [exact Hrun|].
  destruct (store_success_stamps _ _ _ _ _ Hrun) as (d & Hd & _ & Hts & Hc & _).
  exists d. split; [exact Hd|]. split; [exact Hts|].
  rewrite Hc. reflexivity.
Defined.

Lemma ensure_key_idempotent_witness :
  let st := initial env_with_key in
  environ st !! "AWS_KMS_KEY_ID" = Some "key-123" ∧
  ∃ st',
    create_kms_key_if_not_exists (serving calgary_payload) st
      = (Normal tt, st') ∧
    kms_key_id st' = PStr "key-123" ∧
    calls st' = calls st.
Proof.
  cbv zeta. split; [reflexivity|].
  destruct (ensure_key_idempotent (serving calgary_payload)
              (initial env_with_key) "key-123")
    as (st' & Hrun & Hk & Hc & _).
  - reflexivity.
  - discriminate.
  - exists st'. split; [exact Hrun|]. split; [exact Hk|exact Hc].
Defined.

Lemma ensure_bucket_idempotent_witness :
  let w := bucket_exists calgary_payload in
  let st := holding (PStr "key-123") calgary_payload in
  s3_head_bucket w (calls st) (bucket_name st) = Returned tt ∧
  ∃ st',
    create_bucket_if_not_exists w st = (Normal tt, st') ∧
    calls st' = calls st ++ [EvHeadBucket (bucket_name st) (Returned tt)].
Proof.
  cbv zeta. split; [reflexivity|].
  destruct (ensure_bucket_idempotent (bucket_exists calgary_payload)
              (holding (PStr "key-123") calgary_payload))
    as (st' & Hrun & Hc & _).
  - reflexivity.
  - exists st'. split; [exact Hrun|exact Hc].
Defined.

Lemma incomplete_payload_aborts_witness :
  let w := serving bare_payload in
  let st0 := initial env_with_key in
  let st := (provision w st0).2 in
  let st1 := (fetch_weather w "Calgary"
                (add_line (fetching_line "Calgary") st)).2 in
  truthy (deref st1 0) = true ∧
  has_summary_fields (deref st1 0) = false ∧
  ∃ e, main w st0 = (Raise e, st1) ∧ is_lookup_error e = true.
Proof.
  cbv zeta. split; [reflexivity|]. split; [reflexivity|].
  pose proof (incomplete_payload_aborts (serving bare_payload) []
                ["Ontario"; "New York"] "Calgary" (initial env_with_key)
                (provision (serving bare_payload) (initial env_with_key)).2
                (fetch_weather (serving bare_payload) "Calgary"
                   (add_line (fetching_line "Calgary")
                      (provision (serving bare_payload)
                         (initial env_with_key)).2)).2
                0) as H.
  destruct H as (e & Hmain & He & _).
  - reflexivity.
  - vm_compute. reflexivity.
  - vm_compute. reflexivity.
  - reflexivity.
  - reflexivity.
  - exists e. split; [exact Hmain|exact He].
Defined.

(** The Calgary scenario of the specification, with the configured key:
    [save_to_s3] writes the stamped payload under the city and the capture
    time, encrypted with the configured key. *)
Example calgary_is_stored :
  let w := serving calgary_payload in
  let run := process_city w "Calgary" (provision w (initial env_with_key)).2 in
  run.1 = Normal tt ∧
  put_objects (calls run.2) =
    [PutObjectArgs (PStr "weather-bucket")
       "weather-data/Calgary-20261103-094404.json"
       (JsonDumps (deref run.2 0)) "application/json" "aws:kms"
       (PStr "key-123")] ∧
  getitem (deref run.2 0) "timestamp" = Normal (PStr "20261103-094404").
Proof. vm_compute. repeat split. Qed.

(** A provider that cannot be reached: every city is reported as failed, the
    run completes, and nothing is stored. *)
Example unreachable_provider_run :
  let run := main unreachable (initial env_with_key) in
  run.1 = Normal tt ∧
  put_objects (calls run.2) = [] ∧
  length (calls run.2) = 6.
Proof. vm_compute. repeat split. Qed.

Example strftime_example :
  strftime (Datetime 2026 11 3 9 44 7) = "20261103-094407".
Proof. reflexivity. Qed.

End Scenarios.

(** ** Beyond the claims: what a run writes *)

Lemma writes_for_refl (cs : list string) (st : state) : writes_for cs st st.
Proof. exists []. rewrite app_nil_r. split; [reflexivity|constructor]. Qed.

Lemma writes_for_trans (cs : list string) (st1 st2 st3 : state) :
  writes_for cs st1 st2 → writes_for cs st2 st3 → writes_for cs st1 st3.
Proof.
  intros (a1 & H1 & F1) (a2 & H2 & F2). exists (a1 ++ a2). split.
  - rewrite H2, H1, app_assoc. reflexivity.
  - apply Forall_app. split; assumption.
Qed.

Lemma writes_for_weaken (cs cs' : list string) (st st' : state) :
  cs ⊆ cs' → writes_for cs st st' → writes_for cs' st st'.
Proof.
  intros Hsub (a & H & F). exists a. split; [exact H|].
  eapply Forall_impl; [exact F|]. intros args (c & Hc & Hp).
  exists c. split; [apply Hsub, Hc|exact Hp].
Qed.

(** Nothing was written between two states with the same writes. *)
Lemma writes_for_same (cs : list string) (st st' : state) :
  put_objects (calls st') = put_objects (calls st) → writes_for cs st st'.
Proof.
  intros H. exists []. rewrite app_nil_r. split; [exact H|constructor].
Qed.

(** A traffic of no write adds no write. *)
Lemma traffic_no_write (cs : list string) (st st' : state)
      (reqs : list (list (string * pyval))) :
  config_kept st st' → traffic st st' reqs 0 → writes_for cs st st'.
Proof.
  intros (_ & _ & added & Hc & _) (_ & _ & Hn). apply writes_for_same.
  rewrite Hc, put_objects_app in Hn |- *. rewrite length_app in Hn.
  destruct (put_objects added); [apply app_nil_r|cbn in Hn; lia].
Qed.

(** Calls that all use a key, when the key is unset, are neither writes nor
    encryption configurations. *)
Lemma unset_key_no_storage_writes (k : pyval) (added : list event) :
  truthy k = false →
  Forall (event_uses_key k) added →
  put_objects added = [] ∧
  Forall (λ ev, is_put_bucket_encryption ev = false) added.
Proof.
  intros Hu Hf. induction Hf as [|ev added Hev _ [IH1 IH2]].
  - split; [reflexivity|constructor].
  - destruct ev; cbn in Hev |- *;
      try (split; [exact IH1|constructor; [reflexivity|exact IH2]]);
      exfalso; destruct Hev as (_ & _ & Hev); congruence.
Qed.

Section Writes.

Variable w : world.

Lemma save_to_s3_writes (weather_data : nat) (city : string) (st : state) :
  writes_for [city] st (save_to_s3 w weather_data city st).2.
Proof.
  unfold save_to_s3. unfold_M. cbn -[String.append truthy file_name_of].
  destruct (truthy (deref st weather_data)) eqn:Ht;
    cbn -[String.append truthy file_name_of].
  2: { apply writes_for_refl. }
  pose proof (deref_truthy _ _ Ht) as Hl.
  assert (Hst : ∀ v,
             default PNone (<[weather_data := v]> (heap st) !! weather_data) = v).
  { intros v. rewrite list_lookup_insert_eq; [reflexivity|].
    eapply lookup_lt_Some, Hl. }
  destruct (deref st weather_data) as [|b|z|f|s|l|d] eqn:Hd;
    cbn -[String.append truthy file_name_of];
    try (apply writes_for_same; reflexivity).
  destruct (truthy (kms_key_id st)); cbn -[String.append truthy file_name_of].
  2: { apply writes_for_same; reflexivity. }
  unfold deref. cbn [heap set_heap add_line add_call]. rewrite Hst.
  destruct (s3_put_object w _ _) as [[]|e];
    cbn -[String.append truthy file_name_of];
    try destruct (is_Exception e); cbn -[String.append truthy file_name_of];
    (unfold writes_for; cbn [snd calls add_line add_call set_heap];
     eexists; split;
     [ rewrite put_objects_app; reflexivity
     | repeat constructor; exists city; split; [left|];
       exists (datetime_now w (calls st)); eexists;
       split; [reflexivity|]; split; [reflexivity|]; apply dict_get_set ]).
Qed.

Lemma process_city_writes (city : string) (st : state) :
  writes_for [city] st (process_city w city st).2.
Proof.
  remember (process_city w city st) as res eqn:Hres.
  unfold process_city, bind at 1 2 3, print, modify, get in Hres.
  destruct (fetch_weather_traffic w city (add_line (fetching_line city) st))
    as [Tf Cf].
  pose proof (traffic_no_write [city] _ _ _ Cf Tf) as W1.
  assert (W0 : writes_for [city] st (add_line (fetching_line city) st))
    by (apply writes_for_same; reflexivity).
  pose proof (writes_for_trans _ _ _ _ W0 W1) as W. clear Tf Cf W0 W1.
  destruct (fetch_weather w city _) as [[weather_data|e] st1]; cbn [snd] in W.
  2: { subst res. exact W. }
  destruct (truthy (deref st1 weather_data)).
  2: { subst res. eapply writes_for_trans; [exact W|].
       apply writes_for_same. reflexivity. }
  unfold bind, lift in Hres.
  repeat match type of Hres with
         | context [getitem ?v ?k] =>
             destruct (getitem v k) as [?|?]; [|subst res; exact W]
         | context [getitem_0 ?v] =>
             destruct (getitem_0 v) as [?|?]; [|subst res; exact W]
         end.
  unfold print, modify in Hres. cbn -[save_to_s3] in Hres.
  match type of Hres with
  | context [save_to_s3 w weather_data city ?s] =>
      pose proof (save_to_s3_writes weather_data city s) as Ws;
      assert (Wl : writes_for [city] st1 s)
        by (apply writes_for_same; reflexivity);
      destruct (save_to_s3 w weather_data city s) as [[[]|e] st2];
      cbn [snd] in Ws
  end.
  all: subst res; cbn [snd];
    eapply writes_for_trans; [exact W|];
    eapply writes_for_trans; [exact Wl|];
    exact Ws.
Qed.

Lemma for_each_writes (cs : list string) (st : state) :
  writes_for cs st (for_each cs (process_city w) st).2.
Proof.
  revert st. induction cs as [|c cs IH]; intros st; cbn.
  - apply writes_for_refl.
  - unfold bind. pose proof (process_city_writes c st) as Wc.
    apply (writes_for_weaken _ (c :: cs)) in Wc.
    2: { intros x Hx. apply list_elem_of_singleton in Hx as ->. left. }
    destruct (process_city w c st) as [[[]|e] st1]; cbn [snd] in Wc |- *;
      [|exact Wc].
    eapply writes_for_trans; [exact Wc|].
    eapply writes_for_weaken; [|apply IH]. intros x Hx. right. exact Hx.
Qed.

(** X18. Every write a run attempts, accepted by storage or not, is a write
    for one of the three cities: its key is
    [weather-data/{city}-{timestamp}.json] with a formatted clock reading,
    and its body is the dump of a dict whose [timestamp] field is that same
    reading.  This holds for every environment and every behaviour of the
    services. *)
Theorem run_writes_are_city_snapshots (env : gmap string string) :
  Forall (λ args, ∃ c, c ∈ cities ∧ put_for c args)
         (put_objects (calls (main w (initial env)).2)).
Proof.
  assert (Hrun : writes_for cities (initial env) (main w (initial env)).2).
  { remember (main w (initial env)) as run eqn:Hrun.
    unfold main, bind in Hrun.
    destruct (init_calls w (initial env)).
    pose proof (init_calls w (initial env)) as Hi.
    destruct (WeatherDashboard_init w (initial env)) as [[[]|e] sa];
      cbn [snd] in Hi.
    2: { subst run. apply writes_for_same. cbn [snd]. rewrite Hi. reflexivity. }
    assert (Wa : writes_for cities (initial env) sa)
      by (apply writes_for_same; rewrite Hi; reflexivity).
    destruct (create_kms_traffic w sa) as [Tk Ck].
    pose proof (traffic_no_write cities _ _ _ Ck Tk) as Wk. clear Tk Ck.
    destruct (create_kms_key_if_not_exists w sa) as [[[]|e] sb];
      cbn [snd] in Wk.
    2: { subst run. eapply writes_for_trans; eassumption. }
    destruct (create_bucket_traffic w sb) as [Tb Cb].
    pose proof (traffic_no_write cities _ _ _ Cb Tb) as Wb. clear Tb Cb.
    destruct (create_bucket_if_not_exists w sb) as [[[]|e] sc];
      cbn [snd] in Wb.
    2: { subst run. eapply writes_for_trans; [exact Wa|].
         eapply writes_for_trans; eassumption. }
    subst run. eapply writes_for_trans; [exact Wa|].
    eapply writes_for_trans; [exact Wk|].
    eapply writes_for_trans; [exact Wb|]. apply for_each_writes. }
  destruct Hrun as (added & Ha & Hf). rewrite Ha. exact Hf.
Qed.

(** X17. A run that has no key writes nothing.  With no identifier in the
    environment and a [create_key] that raises an [Exception], the whole
    run makes no [put_object] and no [put_bucket_encryption] call, whatever
    the provider and the storage answer. *)
Theorem run_without_key_writes_nothing (env : gmap string string) (e : exc) :
  env !! "AWS_KMS_KEY_ID" = None ∨ env !! "AWS_KMS_KEY_ID" = Some "" →
  kms_create_key w [] = Raised e →
  is_Exception e = true →
  let st := (main w (initial env)).2 in
  put_objects (calls st) = [] ∧
  Forall (λ ev, is_put_bucket_encryption ev = false) (calls st) ∧
  truthy (kms_key_id st) = false.
Proof.
  intros Henv Hcreate Hcls st. subst st.
  remember (main w (initial env)) as run eqn:Hrun.
  unfold main in Hrun. unfold bind at 1 in Hrun.
  pose proof (init_calls w (initial env)) as Hi.
  assert (He : environ (WeatherDashboard_init w (initial env)).2 = env).
  { unfold WeatherDashboard_init. unfold_M. cbn.
    destruct (boto3_client w "s3") as [[]|e0]; cbn; [|reflexivity].
    destruct (boto3_client w "kms") as [[]|e0]; reflexivity. }
  pose proof (init_leaves_key_unset w (initial env) eq_refl) as Hk.
  destruct (WeatherDashboard_init w (initial env)) as [[[]|e0] sa];
    cbn [snd calls initial] in Hi, He, Hk.
  2: { subst run. cbn [snd]. rewrite Hi, Hk.
       split; [reflexivity|]. split; [constructor|reflexivity]. }
  assert (Hkms : create_kms_key_if_not_exists w sa =
                 (Normal tt,
                  add_line [Lit "Error creating or using KMS key: "; Err e]
                    (add_call (EvCreateKey (Raised e))
                       (add_line [Lit "Creating a new KMS key..."]
                          (set_kms_key_id
                             match env !! "AWS_KMS_KEY_ID" with
                             | Some s => PStr s
                             | None => PNone
                             end sa))))).
  { unfold create_kms_key_if_not_exists. unfold_M. cbn. rewrite He.
    assert (Hu : truthy match env !! "AWS_KMS_KEY_ID" with
                        | Some s => PStr s
                        | None => PNone
                        end = false) by (destruct Henv as [->| ->]; reflexivity).
    rewrite Hu. cbn. rewrite Hi, Hcreate. cbn. rewrite Hcls. reflexivity. }
  unfold bind at 1 in Hrun. rewrite Hkms in Hrun.
  match type of Hrun with
  | run = (_;; _) ?s =>
      assert (Hrest : key_kept s run.2);
      [ subst run; unfold bind;
        pose proof (create_bucket_key_kept w s) as Hb;
        destruct (create_bucket_if_not_exists w s) as [[[]|e1] sc];
        cbn [snd] in Hb |- *; [|exact Hb];
        eapply key_kept_trans; [exact Hb|apply for_each_key_kept]
      | destruct Hrest as (Hkey & added & Hc & Hf);
        cbn [kms_key_id calls add_line add_call set_kms_key_id] in Hkey, Hc, Hf ]
  end.
  assert (Hu : truthy (kms_key_id run.2) = false).
  { rewrite Hkey. destruct Henv as [->| ->]; reflexivity. }
  rewrite <- Hkey in Hf. clear Hrun Hkms.
  pose proof (unset_key_no_storage_writes _ _ Hu Hf) as Hnone.
  destruct Hnone as [Hp Hfil].
  rewrite Hc, Hi, put_objects_app, Hp.
  split; [reflexivity|]. split; [|exact Hu].
  apply Forall_app. split; [|exact Hfil]. repeat constructor.
Qed.

(** X19. A payload that is false is treated as a failed fetch.  When the
    provider answers with an empty object or list, zero, an empty string,
    false or null, [main] prints the failure line for the city, makes no
    call at all for it after the request, and goes on to the next city. *)
Theorem false_payload_counts_as_failure (city : string) (st st1 : state)
        (weather_data : nat) (rest : list string) :
  fetch_weather w city (add_line (fetching_line city) st)
    = (Normal weather_data, st1) →
  truthy (deref st1 weather_data) = false →
  process_city w city st = (Normal tt, add_line (failed_line city) st1) ∧
  for_each (city :: rest) (process_city w) st =
    for_each rest (process_city w) (add_line (failed_line city) st1).
Proof.
  intros Hfetch Hfalse.
  assert (Hrun : process_city w city st
                 = (Normal tt, add_line (failed_line city) st1)).
  { unfold process_city, bind at 1 2 3, print, modify, get.
    rewrite Hfetch, Hfalse. reflexivity. }
  split; [exact Hrun|].
  cbn [for_each]. unfold bind. rewrite Hrun. reflexivity.
Qed.

End Writes.

(** ** Scenarios for the methods and for whole runs *)

Section MoreScenarios.

Import Scenario.


Lemma fetch_failure_is_no_data_witness :
  let st := holding (PStr "key-123") calgary_payload in
  (∃ e st',
     fetch_weather unreachable "Calgary" st = (Normal 1, st') ∧
     deref st' 1 = PNone ∧
     stdout st' = [[Lit "Error fetching weather data: "; Err e]]) ∧
  (∃ e st',
     fetch_weather city_not_found "Calgary" st = (Normal 1, st') ∧
     deref st' 1 = PNone ∧
     stdout st' = [[Lit "Error fetching weather data: "; Err e]]).
Proof.
  cbv zeta. split.
  - destruct (fetch_failure_is_no_data unreachable "Calgary"
                (holding (PStr "key-123") calgary_payload))
      as (e & st' & Hrun & Hnone & _ & Hout & _).
    + reflexivity.
    + exists e, st'. split; [exact Hrun|]. split; [exact Hnone|exact Hout].
  - destruct (fetch_failure_is_no_data city_not_found "Calgary"
                (holding (PStr "key-123") calgary_payload))
      as (e & st' & Hrun & Hnone & _ & Hout & _).
    + left. reflexivity.
    + exists e, st'. split; [exact Hrun|]. split; [exact Hnone|exact Hout].
Defined.

Lemma fetch_lets_other_exceptions_through_witness :
  let st := holding (PStr "key-123") calgary_payload in
  (fetch_weather interrupted "Calgary" st).1 = Raise (Exc KeyboardInterrupt "") ∧
  (process_city interrupted "Calgary" st).1 = Raise (Exc KeyboardInterrupt "").
Proof.
  cbv zeta.
  destruct (fetch_lets_other_exceptions_through interrupted "Calgary"
              (holding (PStr "key-123") calgary_payload)
              (Exc KeyboardInterrupt "") eq_refl eq_refl) as [-> ->].
  split; reflexivity.
Defined.


Lemma ensure_key_failure_leaves_unset_witness :
  let st := initial env_without_key in
  ∃ e st',
    create_kms_key_if_not_exists kms_down st = (Normal tt, st') ∧
    truthy (kms_key_id st') = false ∧
    last (stdout st') = Some [Lit "Error creating or using KMS key: "; Err e].
Proof.
  cbv zeta.
  destruct (ensure_key_failure_leaves_unset kms_down (initial env_without_key))
    as (e & st' & Hrun & Hk & _ & Hout & _).
  - left. reflexivity.
  - reflexivity.
  - exists e, st'. split; [exact Hrun|]. split; [exact Hk|exact Hout].
Defined.


Lemma head_failure_means_create_witness :
  let w := serving calgary_payload in
  let st := holding (PStr "key-123") calgary_payload in
  ∃ rest,
    calls (create_bucket_if_not_exists w st).2 =
      [EvHeadBucket (PStr "weather-bucket") (Raised (Exc ClientError "Not Found"))]
      ++ EvCreateBucket (PStr "weather-bucket") (Returned tt) :: rest.
Proof.
  cbv zeta.
  destruct (head_failure_means_create (serving calgary_payload)
              (holding (PStr "key-123") calgary_payload)
              (Exc ClientError "Not Found") eq_refl) as (rest & Hc & _).
  exists rest. exact Hc.
Defined.

Lemma create_failure_skips_encryption_witness :
  let st := holding (PStr "key-123") calgary_payload in
  ∃ st',
    create_bucket_if_not_exists storage_down st = (Normal tt, st') ∧
    calls st' =
      [EvHeadBucket (PStr "weather-bucket")
         (Raised (Exc ClientError "Not Found"))]
      ++ [EvCreateBucket (PStr "weather-bucket")
            (Raised (Exc ClientError "AccessDenied"))].
Proof.
  cbv zeta.
  destruct (create_failure_skips_encryption storage_down
              (holding (PStr "key-123") calgary_payload)
              (Exc ClientError "Not Found") (Exc ClientError "AccessDenied")
              eq_refl eq_refl eq_refl) as (st' & Hrun & Hc & _).
  exists st'. split; [exact Hrun|exact Hc].
Defined.

Lemma store_put_failure_returns_false_witness :
  let st := holding (PStr "key-123") calgary_payload in
  ∃ st',
    save_to_s3 storage_down 0 "Calgary" st = (Normal false, st') ∧
    length (put_objects (calls st')) = 1 ∧
    getitem (deref st' 0) "timestamp" = Normal (PStr "20261103-094400").
Proof.
  cbv zeta.
  destruct (store_put_failure_returns_false storage_down 0 "Calgary"
              (holding (PStr "key-123") calgary_payload)
              [("main", PDict [("temp", PFloat 45.25);
                               ("feels_like", PFloat 40.5);
                               ("humidity", PInt 60)]);
               ("weather", PList [PDict [("description", PStr "clear sky")]])]
              (Exc ClientError "AccessDenied")
              eq_refl eq_refl eq_refl eq_refl eq_refl)
    as (st' & Hrun & Hc & Hd & _).
  exists st'. split; [exact Hrun|]. rewrite Hc, Hd. split; reflexivity.
Defined.

Lemma store_rejects_non_dict_witness :
  let st := holding (PStr "key-123") (PList [PInt 1]) in
  ∃ e st',
    save_to_s3 (serving calgary_payload) 0 "Calgary" st = (Normal false, st') ∧
    exc_cls e = TypeError ∧
    calls st' = [] ∧
    heap st' = [PList [PInt 1]].
Proof.
  cbv zeta.
  destruct (store_rejects_non_dict (serving calgary_payload) 0 "Calgary"
              (holding (PStr "key-123") (PList [PInt 1])))
    as (e & st' & Hrun & Hcls & Hc & Hh & _).
  - reflexivity.
  - intros d. discriminate.
  - exists e, st'. split; [exact Hrun|]. split; [exact Hcls|].
    split; [exact Hc|exact Hh].
Defined.

Lemma store_touches_timestamp_only_witness :
  let st := holding (PStr "key-123") calgary_payload in
  let st' := (save_to_s3 (serving calgary_payload) 0 "Calgary" st).2 in
  getitem (deref st' 0) "main" = getitem (deref st 0) "main" ∧
  deref st' 1 = deref st 1.
Proof.
  cbv zeta.
  destruct (store_touches_timestamp_only (serving calgary_payload) 0 "Calgary"
              (holding (PStr "key-123") calgary_payload))
    as (Hother & Hfields & _).
  split; [apply Hfields; discriminate|apply Hother; discriminate].
Defined.

Lemma file_name_determines_city_witness :
  let t := Datetime 2026 11 3 9 44 7 in
  four_digit_year t ∧
  file_name_of "Calgary" (strftime t) =
    "weather-data/Calgary-20261103-094407.json" ∧
  "Calgary" = "Calgary" ∧ strftime t = strftime t.
Proof.
  cbv zeta.
  assert (Hy : four_digit_year (Datetime 2026 11 3 9 44 7))
    by (unfold four_digit_year; cbn; lia).
  split; [exact Hy|]. split; [reflexivity|].
  apply (file_name_determines_city "Calgary" "Calgary"
           (Datetime 2026 11 3 9 44 7) (Datetime 2026 11 3 9 44 7) Hy Hy).
  reflexivity.
Defined.



Lemma requests_follow_city_list_witness :
  let run := main storage_down (initial env_with_key) in
  run.1 = Normal tt ∧
  requests_sent (calls run.2) = map (params_of (PStr "api-key")) cities ∧
  (length (put_objects (calls run.2)) ≤ 3)%nat.
Proof.
  cbv zeta.
  assert (Hnormal : (main storage_down (initial env_with_key)).1 = Normal tt)
    by (vm_compute; reflexivity).
  split; [exact Hnormal|].
  destruct (requests_follow_city_list storage_down env_with_key)
    as (n & _ & Hr & Hp & Hall).
  rewrite (Hall Hnormal) in Hr, Hp. split; [exact Hr|exact Hp].
Defined.

Lemma run_without_key_writes_nothing_witness :
  let st := (main kms_down (initial env_without_key)).2 in
  put_objects (calls st) = [] ∧
  Forall (λ ev, is_put_bucket_encryption ev = false) (calls st) ∧
  length (requests_sent (calls st)) = 3.
Proof.
  cbv zeta.
  destruct (run_without_key_writes_nothing kms_down env_without_key
              (Exc ClientError "AccessDenied")) as (Hp & He & _).
  - left. reflexivity.
  - reflexivity.
  - reflexivity.
  - split; [exact Hp|]. split; [exact He|]. vm_compute. reflexivity.
Defined.

Lemma false_payload_counts_as_failure_witness :
  let w := serving (PDict []) in
  let st := holding (PStr "key-123") calgary_payload in
  let st1 := (fetch_weather w "Calgary"
                (add_line (fetching_line "Calgary") st)).2 in
  deref st1 1 = PDict [] ∧
  process_city w "Calgary" st
    = (Normal tt, add_line (failed_line "Calgary") st1) ∧
  calls st1 =
    [EvRequestsGet base_url (params_of (PStr "api-key") "Calgary")
       (Returned (HttpResponse 200 (Some (PDict []))))].
Proof.
  cbv zeta. split; [reflexivity|].
  destruct (false_payload_counts_as_failure (serving (PDict [])) "Calgary"
              (holding (PStr "key-123") calgary_payload)
              (fetch_weather (serving (PDict [])) "Calgary"
                 (add_line (fetching_line "Calgary")
                    (holding (PStr "key-123") calgary_payload))).2
              1 []) as [Hrun _].
  - vm_compute. reflexivity.
  - reflexivity.
  - split; [exact Hrun|reflexivity].
Defined.

End MoreScenarios.
